(** * hostname1: the systemd hostnamed D-Bus adapter (go-systemd)

    A shallow embedding of [src/hostname1/dbus.go] and of its setters-only
    twin [src/unnamed/part_000].  The adapter is a thin synchronous facade
    over a bus client library: every method is a short sequence of calls
    into that library.  The library and the operating system are external;
    they are taken as a parameter (a record of operations over an abstract
    state), and every call the adapter makes into them is recorded in a
    trace, so that "which calls were issued, with which arguments, in which
    order" is something theorems can talk about. *)

From Stdlib Require Import ZArith NArith String Ascii List Lia.
From stdpp Require Import base option list gmap strings.

Local Open Scope string_scope.
Local Open Scope list_scope.
Set Warnings "-register-all".

(** * Go values

    [interface{}] values as they come out of the bus decoder: a dynamic
    type and a payload.  [VNil] is the nil interface value. *)

Inductive GoType : Type :=
| TBool | TUint8 | TInt16 | TUint16 | TInt32 | TUint32 | TInt64 | TUint64
| TFloat64 | TString
| TObjectPath | TSignature | TVariant | TUnixFD
| TInterface
| TSlice (elem : GoType)
| TMap (key val : GoType).

(** [reflect.Type.String]: the text [%T] prints for a value of the type. *)
Fixpoint type_String (t : GoType) : string :=
  match t with
  | TBool => "bool"
  | TUint8 => "uint8"
  | TInt16 => "int16"
  | TUint16 => "uint16"
  | TInt32 => "int32"
  | TUint32 => "uint32"
  | TInt64 => "int64"
  | TUint64 => "uint64"
  | TFloat64 => "float64"
  | TString => "string"
  | TObjectPath => "dbus.ObjectPath"
  | TSignature => "dbus.Signature"
  | TVariant => "dbus.Variant"
  | TUnixFD => "dbus.UnixFD"
  | TInterface => "interface {}"
  | TSlice e => "[]" +:+ type_String e
  | TMap k v => "map[" +:+ type_String k +:+ "]" +:+ type_String v
  end.

Inductive GoValue : Type :=
| VNil
| VBool (b : bool)
| VUint8 (n : Z) | VInt16 (n : Z) | VUint16 (n : Z)
| VInt32 (n : Z) | VUint32 (n : Z) | VInt64 (n : Z) | VUint64 (n : Z)
| VFloat64 (bits : Z)
| VString (s : string)
| VObjectPath (s : string)
| VSignature (s : string)
| VUnixFD (n : Z)
| VVariant (sig : string) (v : GoValue)
| VSlice (elem : GoType) (xs : list GoValue)
| VMap (key val : GoType) (kvs : list (GoValue * GoValue)).

(** The dynamic type of an interface value; [None] for the nil interface. *)
Definition TypeOf (v : GoValue) : option GoType :=
  match v with
  | VNil => None
  | VBool _ => Some TBool
  | VUint8 _ => Some TUint8
  | VInt16 _ => Some TInt16
  | VUint16 _ => Some TUint16
  | VInt32 _ => Some TInt32
  | VUint32 _ => Some TUint32
  | VInt64 _ => Some TInt64
  | VUint64 _ => Some TUint64
  | VFloat64 _ => Some TFloat64
  | VString _ => Some TString
  | VObjectPath _ => Some TObjectPath
  | VSignature _ => Some TSignature
  | VUnixFD _ => Some TUnixFD
  | VVariant _ _ => Some TVariant
  | VSlice e _ => Some (TSlice e)
  | VMap k v _ => Some (TMap k v)
  end.

(** Whether the dynamic type is exactly [string]. *)
Definition is_string (v : GoValue) : bool :=
  match TypeOf v with
  | Some TString => true
  | _ => false
  end.

(** The verb [%T] of package fmt. *)
Definition fmt_T (v : GoValue) : string :=
  match TypeOf v with
  | None => "<nil>"
  | Some t => type_String t
  end.

(** The comma-ok type assertion [v.(string)]: it succeeds only when the
    dynamic type is exactly [string]; otherwise the zero string and false. *)
Definition assert_string (v : GoValue) : string * bool :=
  match v with
  | VString s => (s, true)
  | _ => ("", false)
  end.

(** * Errors

    Go's [error] interface; the nil error is [None] of [option error]. *)

Inductive error : Type :=
| errorString (msg : string)
| dbus_Error (name : string) (body : list GoValue)
| transport_error (op : string) (msg : string).

(** [fmt.Errorf("hostname has incorrect type: %T", hn)] *)
Definition Errorf_incorrect_type (hn : GoValue) : error :=
  errorString ("hostname has incorrect type: " +:+ fmt_T hn).

(** * strconv.Itoa *)

Definition digit (d : N) : ascii := ascii_of_N (48 + d).

Fixpoint formatBits (fuel : nat) (n : N) (acc : string) : string :=
  match fuel with
  | O => acc
  | S fuel' =>
      let acc' := String (digit (n mod 10)) acc in
      if (n / 10 =? 0)%N then acc' else formatBits fuel' (n / 10) acc'
  end.

(** Decimal text of a Go [int]; a number has no more decimal digits than
    bits, which bounds the loop. *)
Definition Itoa (i : Z) : string :=
  match i with
  | Z0 => "0"
  | Zpos p => formatBits (Pos.size_nat p) (Npos p) ""
  | Zneg p => String "-" (formatBits (Pos.size_nat p) (Npos p) "")
  end.

(** Reading decimal text back, used to say what "decimal rendering" means. *)
Definition digit_val (c : ascii) : option N :=
  let n := N_of_ascii c in
  if ((48 <=? n) && (n <=? 57))%N then Some (n - 48)%N else None.

Fixpoint read_digits (a : N) (s : string) : option N :=
  match s with
  | EmptyString => Some a
  | String c t =>
      match digit_val c with
      | Some d => read_digits (10 * a + d) t
      | None => None
      end
  end.

Definition read_decimal (s : string) : option Z :=
  match s with
  | EmptyString => None
  | String c t =>
      if Ascii.eqb c "-"
      then if String.eqb t "" then None
           else n ← read_digits 0 t; Some (- Z.of_N n)%Z
      else n ← read_digits 0 s; Some (Z.of_N n)
  end.

(** * The bus client library (package dbus) and the process environment *)

(** [*dbus.Conn]: the address of a connection owned by the library. *)
Definition dbus_Conn : Type := nat.

(** [dbus.Auth]: the authentication mechanisms the library offers. *)
Inductive Auth : Type :=
| AuthExternal (user : string)
| AuthCookieSha1 (user home : string)
| AuthAnonymous.

(** [dbus.BusObject] as [Conn.Object] builds it: the connection, the bus
    name and the object path. *)
Record BusObject : Type := Object {
  obj_conn : dbus_Conn;
  obj_dest : string;
  obj_path : string
}.

(** [*dbus.Call]: the reply body and the error status of a finished call. *)
Record Call : Type := MkCall {
  Body : list GoValue;
  Err : option error
}.

(** [dbus.Variant] and its accessor [Value]. *)
Record Variant : Type := MakeVariant {
  variant_sig : string;
  variant_value : GoValue
}.

Definition Variant_Value (v : Variant) : GoValue := variant_value v.

(** What the adapter needs from outside, over a state [S] of the outside
    world.  [SystemBusPrivate] yields either a connection or an error (the
    library returns a nil connection exactly when it returns an error).
    [Store_Variant] and [Store_Props] are [dbus.Store] of a reply body into
    a [*dbus.Variant] and into a [*map[string]dbus.Variant].  Every
    operation answers: a panic or a hang inside the library is not
    represented, so what is proved of a run is proved of the runs in which
    each library call returns. *)
Record Bus (S : Type) : Type := {
  SystemBusPrivate : S -> (dbus_Conn + error) * S;
  Getuid : S -> Z;
  Auth_ : dbus_Conn -> list Auth -> S -> option error * S;
  Hello_ : dbus_Conn -> S -> option error * S;
  Close_ : dbus_Conn -> S -> option error * S;
  Call_ : BusObject -> string -> Z -> list GoValue -> S -> Call * S;
  Store_Variant : list GoValue -> error + Variant;
  Store_Props : list GoValue -> error + gmap string Variant
}.

Arguments SystemBusPrivate {S}.
Arguments Getuid {S}.
Arguments Auth_ {S}.
Arguments Hello_ {S}.
Arguments Close_ {S}.
Arguments Call_ {S}.
Arguments Store_Variant {S}.
Arguments Store_Props {S}.

(** [Call.Store]: the error status of the call if it has one, otherwise
    the outcome of storing the body into the destination. *)
Definition Call_Store {A} (store : list GoValue -> error + A) (c : Call)
  : error + A :=
  match Err c with
  | Some e => inl e
  | None => store (Body c)
  end.

(** Every call into the library or the OS, with what it answered. *)
Inductive Event : Type :=
| EvSystemBusPrivate (r : dbus_Conn + error)
| EvGetuid (uid : Z)
| EvAuth (h : dbus_Conn) (methods : list Auth) (r : option error)
| EvHello (h : dbus_Conn) (r : option error)
| EvClose (h : dbus_Conn) (r : option error)
| EvCall (o : BusObject) (method : string) (flags : Z)
         (args : list GoValue) (r : Call).

(** * The adapter's data and the machine state *)

(** [type Conn struct { conn *dbus.Conn; object dbus.BusObject }], declared
    identically by both source files.  A nil field is [None]. *)
Record Conn : Type := MkConn {
  conn : option dbus_Conn;
  object : option BusObject
}.

(** [*Conn]: nil, or the index of a struct in the heap. *)
Definition ptr : Type := option nat.

Record State (S : Type) : Type := MkState {
  trace : list Event;
  heap : list Conn;
  ext : S
}.

Arguments MkState {S}.
Arguments trace {S}.
Arguments heap {S}.
Arguments ext {S}.

(** A Go computation either returns or panics. *)
Inductive Outcome (S A : Type) : Type :=
| Done (a : A) (s : State S)
| Panic (msg : string) (s : State S).

Arguments Done {S A}.
Arguments Panic {S A}.

Definition Go (S A : Type) : Type := State S -> Outcome S A.

Definition go_ret {S A} (a : A) : Go S A := fun s => Done a s.

Definition go_bind {S A B} (f : A -> Go S B) (m : Go S A) : Go S B :=
  fun s =>
    match m s with
    | Done a s' => f a s'
    | Panic msg s' => Panic msg s'
    end.

#[export] Instance Go_ret {S} : MRet (Go S) := @go_ret S.
#[export] Instance Go_bind {S} : MBind (Go S) := @go_bind S.

Definition nil_deref : string :=
  "runtime error: invalid memory address or nil pointer dereference".

Definition panic {S A} (msg : string) : Go S A := fun s => Panic msg s.

(** ** Heap access and calls into the outside world *)

Section Runtime.
Context {S : Type} (bus : Bus S).

(** [new(Conn)]: a fresh zeroed struct. *)
Definition new_Conn : Go S ptr := fun s =>
  Done (Some (length (heap s)))
       (MkState (trace s) (heap s ++ [MkConn None None]) (ext s)).

(** Reading [*c]; a nil receiver cannot be dereferenced. *)
Definition deref (c : ptr) : Go S Conn := fun s =>
  match c with
  | None => Panic nil_deref s
  | Some p =>
      match heap s !! p with
      | Some v => Done v s
      | None => Panic nil_deref s
      end
  end.

(** Writing through [c]: the struct is replaced in place. *)
Definition update (c : ptr) (f : Conn -> Conn) : Go S unit := fun s =>
  match c with
  | None => Panic nil_deref s
  | Some p =>
      match heap s !! p with
      | Some v => Done tt (MkState (trace s) (<[p := f v]> (heap s)) (ext s))
      | None => Panic nil_deref s
      end
  end.

(** The assignments [c.conn = h] and [c.object = o]. *)
Definition set_conn (c : ptr) (h : option dbus_Conn) : Go S unit :=
  update c (fun v => MkConn h (object v)).

Definition set_object (c : ptr) (o : option BusObject) : Go S unit :=
  update c (fun v => MkConn (conn v) o).

(** A call into the outside world: it may change the outside state, and
    it is appended to the trace with its answer. *)
Definition external {A} (f : S -> A * S) (ev : A -> Event) : Go S A :=
  fun s =>
    let '(a, x) := f (ext s) in
    Done a (MkState (trace s ++ [ev a]) (heap s) x).

Definition dbus_SystemBusPrivate : Go S (dbus_Conn + error) :=
  external (SystemBusPrivate bus) EvSystemBusPrivate.

Definition os_Getuid : Go S Z :=
  external (fun x => (Getuid bus x, x)) EvGetuid.

(** Methods of [*dbus.Conn]; calling them through a nil pointer panics. *)
Definition Conn_Auth (h : option dbus_Conn) (methods : list Auth)
  : Go S (option error) :=
  match h with
  | None => panic nil_deref
  | Some h => external (Auth_ bus h methods) (EvAuth h methods)
  end.

Definition Conn_Hello (h : option dbus_Conn) : Go S (option error) :=
  match h with
  | None => panic nil_deref
  | Some h => external (Hello_ bus h) (EvHello h)
  end.

Definition Conn_Close (h : option dbus_Conn) : Go S (option error) :=
  match h with
  | None => panic nil_deref
  | Some h => external (Close_ bus h) (EvClose h)
  end.

(** [conn.Object(dest, path)] only builds the reference. *)
Definition Conn_Object (h : option dbus_Conn) (dest path : string)
  : Go S (option BusObject) :=
  match h with
  | None => panic nil_deref
  | Some h => mret (Some (Object h dest path))
  end.

(** [o.Call(method, flags, args...)] on a [dbus.BusObject] interface
    value; a nil interface has no method to call. *)
Definition Object_Call (o : option BusObject) (method : string) (flags : Z)
           (args : list GoValue) : Go S Call :=
  match o with
  | None => panic nil_deref
  | Some o => external (Call_ bus o method flags args)
                       (EvCall o method flags args)
  end.
End Runtime.

(** The two results of [dbus.SystemBusPrivate] as Go returns them. *)
Definition conn_and_err (r : dbus_Conn + error)
  : option dbus_Conn * option error :=
  match r with
  | inl h => (Some h, None)
  | inr e => (None, Some e)
  end.

(** * src/hostname1/dbus.go *)

Module Hostname1.

Definition dbusInterface : string := "org.freedesktop.hostname1".
Definition dbusPath : string := "/org/freedesktop/hostname1".

Section WithBus.
Context {S : Type} (bus : Bus S).

(** dbus.go, lines 48-75. *)
Definition initConnection (c : ptr) : Go S (option error) :=
  r ← dbus_SystemBusPrivate bus;
  let '(h, err) := conn_and_err r in
  _ ← set_conn c h;
  match err with
  | Some e => mret (Some e)
  | None =>
      uid ← os_Getuid bus;
      let methods := [AuthExternal (Itoa uid)] in
      v ← deref c;
      err ← Conn_Auth bus (conn v) methods;
      match err with
      | Some e =>
          v ← deref c;
          _ ← Conn_Close bus (conn v);
          mret (Some e)
      | None =>
          v ← deref c;
          err ← Conn_Hello bus (conn v);
          match err with
          | Some e =>
              v ← deref c;
              _ ← Conn_Close bus (conn v);
              mret (Some e)
          | None =>
              v ← deref c;
              o ← Conn_Object (conn v) "org.freedesktop.hostname1" dbusPath;
              _ ← set_object c o;
              mret None
          end
      end
  end.

(** dbus.go, lines 38-46. *)
Definition New : Go S (ptr * option error) :=
  c ← new_Conn;
  err ← initConnection c;
  match err with
  | Some e => mret (None, Some e)
  | None => mret (c, None)
  end.

(** dbus.go, lines 78-80. *)
Definition Close (c : ptr) : Go S (option error) :=
  v ← deref c;
  Conn_Close bus (conn v).

(** dbus.go, lines 83-98.  [props] starts as the nil map and is filled by
    [Store]; the loop copies every entry into [out], unwrapped. *)
Definition GetProperties (c : ptr)
  : Go S (option (gmap string GoValue) * option error) :=
  v ← deref c;
  call ← Object_Call bus (object v)
         "org.freedesktop.DBus.Properties.GetAll" 0 [VString dbusInterface];
  match Call_Store (Store_Props bus) call with
  | inl err => mret (None, Some err)
  | inr props =>
      let out :=
        map_fold (fun k v out => <[k := Variant_Value v]> out) ∅ props in
      mret (Some out, None)
  end.

(** dbus.go, lines 101-111. *)
Definition GetProperty (c : ptr) (propertyName : string)
  : Go S (GoValue * option error) :=
  v ← deref c;
  call ← Object_Call bus (object v)
         "org.freedesktop.DBus.Properties.Get" 0
         [VString dbusInterface; VString propertyName];
  match Call_Store (Store_Variant bus) call with
  | inl err => mret (VNil, Some err)
  | inr prop => mret (Variant_Value prop, None)
  end.

(** dbus.go, lines 114-122. *)
Definition GetHostname (c : ptr) : Go S (string * option error) :=
  '(hn, err) ← GetProperty c "Hostname";
  match err with
  | Some e => mret ("", Some e)
  | None =>
      let '(hns, ok) := assert_string hn in
      if negb ok
      then mret ("", Some (Errorf_incorrect_type hn))
      else mret (hns, None)
  end.

(** dbus.go, lines 125-133. *)
Definition GetStaticHostname (c : ptr) : Go S (string * option error) :=
  '(hn, err) ← GetProperty c "StaticHostname";
  match err with
  | Some e => mret ("", Some e)
  | None =>
      let '(hns, ok) := assert_string hn in
      if negb ok
      then mret ("", Some (Errorf_incorrect_type hn))
      else mret (hns, None)
  end.

(** dbus.go, lines 136-138. *)
Definition SetHostname (c : ptr) (name : string) (askForAuth : bool)
  : Go S (option error) :=
  v ← deref c;
  call ← Object_Call bus (object v) (dbusInterface +:+ ".SetHostname") 0
         [VString name; VBool askForAuth];
  mret (Err call).

(** dbus.go, lines 141-143. *)
Definition SetStaticHostname (c : ptr) (name : string) (askForAuth : bool)
  : Go S (option error) :=
  v ← deref c;
  call ← Object_Call bus (object v) (dbusInterface +:+ ".SetStaticHostname") 0
         [VString name; VBool askForAuth];
  mret (Err call).

(** dbus.go, lines 146-148. *)
Definition SetPrettyHostname (c : ptr) (name : string) (askForAuth : bool)
  : Go S (option error) :=
  v ← deref c;
  call ← Object_Call bus (object v) (dbusInterface +:+ ".SetPrettyHostname") 0
         [VString name; VBool askForAuth];
  mret (Err call).

(** dbus.go, lines 151-153. *)
Definition SetIconName (c : ptr) (name : string) (askForAuth : bool)
  : Go S (option error) :=
  v ← deref c;
  call ← Object_Call bus (object v) (dbusInterface +:+ ".SetIconName") 0
         [VString name; VBool askForAuth];
  mret (Err call).

(** dbus.go, lines 156-158. *)
Definition SetChassis (c : ptr) (name : string) (askForAuth : bool)
  : Go S (option error) :=
  v ← deref c;
  call ← Object_Call bus (object v) (dbusInterface +:+ ".SetChassis") 0
         [VString name; VBool askForAuth];
  mret (Err call).
End WithBus.

End Hostname1.

(** * src/unnamed/part_000: the setters-only variant *)

Module SettersOnly.

Definition dbusInterface : string := "org.freedesktop.hostname1".
Definition dbusPath : string := "/org/freedesktop/hostname1".

Section WithBus.
Context {S : Type} (bus : Bus S).

(** part_000, lines 47-74. *)
Definition initConnection (c : ptr) : Go S (option error) :=
  r ← dbus_SystemBusPrivate bus;
  let '(h, err) := conn_and_err r in
  _ ← set_conn c h;
  match err with
  | Some e => mret (Some e)
  | None =>
      uid ← os_Getuid bus;
      let methods := [AuthExternal (Itoa uid)] in
      v ← deref c;
      err ← Conn_Auth bus (conn v) methods;
      match err with
      | Some e =>
          v ← deref c;
          _ ← Conn_Close bus (conn v);
          mret (Some e)
      | None =>
          v ← deref c;
          err ← Conn_Hello bus (conn v);
          match err with
          | Some e =>
              v ← deref c;
              _ ← Conn_Close bus (conn v);
              mret (Some e)
          | None =>
              v ← deref c;
              o ← Conn_Object (conn v) "org.freedesktop.hostname1" dbusPath;
              _ ← set_object c o;
              mret None
          end
      end
  end.

(** part_000, lines 37-45. *)
Definition New : Go S (ptr * option error) :=
  c ← new_Conn;
  err ← initConnection c;
  match err with
  | Some e => mret (None, Some e)
  | None => mret (c, None)
  end.

(** part_000, lines 77-79. *)
Definition SetHostname (c : ptr) (name : string) (askForAuth : bool)
  : Go S (option error) :=
  v ← deref c;
  call ← Object_Call bus (object v) (dbusInterface +:+ ".SetHostname") 0
         [VString name; VBool askForAuth];
  mret (Err call).

(** part_000, lines 82-84. *)
Definition SetStaticHostname (c : ptr) (name : string) (askForAuth : bool)
  : Go S (option error) :=
  v ← deref c;
  call ← Object_Call bus (object v) (dbusInterface +:+ ".SetStaticHostname") 0
         [VString name; VBool askForAuth];
  mret (Err call).

(** part_000, lines 87-89. *)
Definition SetPrettyHostname (c : ptr) (name : string) (askForAuth : bool)
  : Go S (option error) :=
  v ← deref c;
  call ← Object_Call bus (object v) (dbusInterface +:+ ".SetPrettyHostname") 0
         [VString name; VBool askForAuth];
  mret (Err call).

(** part_000, lines 92-94. *)
Definition SetIconName (c : ptr) (name : string) (askForAuth : bool)
  : Go S (option error) :=
  v ← deref c;
  call ← Object_Call bus (object v) (dbusInterface +:+ ".SetIconName") 0
         [VString name; VBool askForAuth];
  mret (Err call).

(** part_000, lines 97-99. *)
Definition SetChassis (c : ptr) (name : string) (askForAuth : bool)
  : Go S (option error) :=
  v ← deref c;
  call ← Object_Call bus (object v) (dbusInterface +:+ ".SetChassis") 0
         [VString name; VBool askForAuth];
  mret (Err call).
End WithBus.

End SettersOnly.

(** * Vocabulary of the statements *)

(** The five setters by name, to speak of "each setter". *)
Inductive Setter : Type :=
| mSetHostname | mSetStaticHostname | mSetPrettyHostname
| mSetIconName | mSetChassis.

(** The Go identifier of the method. *)
Definition setter_name (m : Setter) : string :=
  match m with
  | mSetHostname => "SetHostname"
  | mSetStaticHostname => "SetStaticHostname"
  | mSetPrettyHostname => "SetPrettyHostname"
  | mSetIconName => "SetIconName"
  | mSetChassis => "SetChassis"
  end.

(** Method dispatch in each file. *)
Definition setter {S} (bus : Bus S) (m : Setter)
  : ptr -> string -> bool -> Go S (option error) :=
  match m with
  | mSetHostname => Hostname1.SetHostname bus
  | mSetStaticHostname => Hostname1.SetStaticHostname bus
  | mSetPrettyHostname => Hostname1.SetPrettyHostname bus
  | mSetIconName => Hostname1.SetIconName bus
  | mSetChassis => Hostname1.SetChassis bus
  end.

Definition setter' {S} (bus : Bus S) (m : Setter)
  : ptr -> string -> bool -> Go S (option error) :=
  match m with
  | mSetHostname => SettersOnly.SetHostname bus
  | mSetStaticHostname => SettersOnly.SetStaticHostname bus
  | mSetPrettyHostname => SettersOnly.SetPrettyHostname bus
  | mSetIconName => SettersOnly.SetIconName bus
  | mSetChassis => SettersOnly.SetChassis bus
  end.

(** The two typed getters and the property each one reads. *)
Inductive TypedGetter : Type := gGetHostname | gGetStaticHostname.

Definition getter_property (g : TypedGetter) : string :=
  match g with
  | gGetHostname => "Hostname"
  | gGetStaticHostname => "StaticHostname"
  end.

Definition typed_getter {S} (bus : Bus S) (g : TypedGetter)
  : ptr -> Go S (string * option error) :=
  match g with
  | gGetHostname => Hostname1.GetHostname bus
  | gGetStaticHostname => Hostname1.GetStaticHostname bus
  end.

(** Connections a stretch of the trace leaves open: opened by a successful
    [SystemBusPrivate] and not yet passed to [Close]. *)
Fixpoint release (h : dbus_Conn) (opened : list dbus_Conn) : list dbus_Conn :=
  match opened with
  | [] => []
  | x :: rest => if decide (x = h) then rest else x :: release h rest
  end.

Fixpoint unreleased (evs : list Event) (opened : list dbus_Conn)
  : list dbus_Conn :=
  match evs with
  | [] => opened
  | EvSystemBusPrivate (inl h) :: evs' => unreleased evs' (h :: opened)
  | EvClose h _ :: evs' => unreleased evs' (release h opened)
  | _ :: evs' => unreleased evs' opened
  end.

(** The authentication attempts in a stretch of the trace. *)
Definition auth_attempts (evs : list Event) : list (list Auth) :=
  omap (fun ev => match ev with EvAuth _ ms _ => Some ms | _ => None end) evs.

(** The remote method calls in a stretch of the trace. *)
Definition remote_calls (evs : list Event)
  : list (BusObject * string * list GoValue) :=
  omap (fun ev => match ev with
                  | EvCall o m _ args _ => Some (o, m, args)
                  | _ => None
                  end) evs.

(** The string coercion of section 4.1, in the specification's words: a
    fetch error is passed on, a string is returned as it is, anything else
    is a type-mismatch error naming the type observed. *)
Definition string_coercion {S} (r : GoValue * option error)
  : Go S (string * option error) :=
  match r with
  | (_, Some e) => mret ("", Some e)
  | (VString s, None) => mret (s, None)
  | (v, None) =>
      mret ("", Some (errorString ("hostname has incorrect type: " +:+ fmt_T v)))
  end.

(** Every operation offered after construction, with its arguments, and
    what it returns. *)
Inductive Op : Type :=
| OpGetProperties
| OpGetProperty (propertyName : string)
| OpTyped (g : TypedGetter)
| OpSet (m : Setter) (name : string) (askForAuth : bool).

Inductive Result : Type :=
| RProps (out : option (gmap string GoValue)) (err : option error)
| RValue (v : GoValue) (err : option error)
| RString (s : string) (err : option error)
| RErr (err : option error).

Definition result_err (r : Result) : option error :=
  match r with
  | RProps _ err | RValue _ err | RString _ err | RErr err => err
  end.

Definition run_op {S} (bus : Bus S) (op : Op) (c : ptr) : Go S Result :=
  match op with
  | OpGetProperties =>
      '(out, err) ← Hostname1.GetProperties bus c; mret (RProps out err)
  | OpGetProperty n =>
      '(v, err) ← Hostname1.GetProperty bus c n; mret (RValue v err)
  | OpTyped g =>
      '(s, err) ← typed_getter bus g c; mret (RString s err)
  | OpSet m name askForAuth =>
      err ← setter bus m c name askForAuth; mret (RErr err)
  end.

(** A caller using one adapter for a series of operations. *)
Fixpoint run_ops {S} (bus : Bus S) (ops : list Op) (c : ptr)
  : Go S (list Result) :=
  match ops with
  | [] => mret []
  | op :: rest =>
      r ← run_op bus op c;
      rs ← run_ops bus rest c;
      mret (r :: rs)
  end.

(** The remote method and the positional arguments section 6 assigns to
    each operation. *)
Definition wire_method (op : Op) : string :=
  match op with
  | OpGetProperties => "org.freedesktop.DBus.Properties.GetAll"
  | OpGetProperty _ | OpTyped _ => "org.freedesktop.DBus.Properties.Get"
  | OpSet m _ _ => "org.freedesktop.hostname1." +:+ setter_name m
  end.

Definition wire_args (op : Op) : list GoValue :=
  match op with
  | OpGetProperties => [VString "org.freedesktop.hostname1"]
  | OpGetProperty n => [VString "org.freedesktop.hostname1"; VString n]
  | OpTyped g =>
      [VString "org.freedesktop.hostname1"; VString (getter_property g)]
  | OpSet _ name askForAuth => [VString name; VBool askForAuth]
  end.

(** * A scripted bus for the test scenarios of section 8

    The stub answers from a fixed script and keeps, as its own state, the
    list of connections it has handed out and not yet seen closed. *)

Module Stub.

Record Script : Type := MkScript {
  dial : dbus_Conn + error;
  uid : Z;
  auth : list Auth -> option error;
  hello : option error;
  reply : string -> list GoValue -> Call
}.

Definition type_mismatch : error := errorString "dbus.Store: type mismatch".
Definition length_mismatch : error := errorString "dbus.Store: length mismatch".

Definition store_variant (body : list GoValue) : error + Variant :=
  match body with
  | [VVariant sig v] => inr (MakeVariant sig v)
  | [_] => inl type_mismatch
  | _ => inl length_mismatch
  end.

Definition props_of (kvs : list (GoValue * GoValue)) : gmap string Variant :=
  foldr (fun kv m =>
           match kv with
           | (VString k, VVariant sig v) => <[k := MakeVariant sig v]> m
           | _ => m
           end) ∅ kvs.

Definition store_props (body : list GoValue) : error + gmap string Variant :=
  match body with
  | [VMap TString TVariant kvs] => inr (props_of kvs)
  | [_] => inl type_mismatch
  | _ => inl length_mismatch
  end.

Definition bus (sc : Script) : Bus (list dbus_Conn) := {|
  SystemBusPrivate := fun opened =>
    (dial sc, match dial sc with inl h => h :: opened | inr _ => opened end);
  Getuid := fun _ => uid sc;
  Auth_ := fun _ ms opened => (auth sc ms, opened);
  Hello_ := fun _ opened => (hello sc, opened);
  Close_ := fun h opened => (None, release h opened);
  Call_ := fun _ m _ args opened => (reply sc m args, opened);
  Store_Variant := store_variant;
  Store_Props := store_props
|}.

Definition unknown_method : error :=
  dbus_Error "org.freedesktop.DBus.Error.UnknownMethod" [].
Definition access_denied : error :=
  dbus_Error "org.freedesktop.DBus.Error.AccessDenied"
             [VString "Access denied"].
Definition auth_failed : error := errorString "dbus: authentication failed".
Definition hello_failed : error := transport_error "read" "EOF".
Definition no_bus : error :=
  transport_error "dial" "connect: no such file or directory".

(** The bus accepts the peer-credential mechanism with the caller's own
    numeric id and nothing else. *)
Definition external_only (ms : list Auth) : option error :=
  match ms with
  | [AuthExternal u] => if String.eqb u "1000" then None else Some auth_failed
  | _ => Some auth_failed
  end.

Definition properties : list (GoValue * GoValue) :=
  [ (VString "Hostname", VVariant "s" (VString "node-1"));
    (VString "StaticHostname", VVariant "s" (VString "build-42"));
    (VString "Chassis", VVariant "s" (VString "server"));
    (VString "KernelName", VVariant "s" (VString "Linux")) ].

(** A well-behaved hostnamed: every setter succeeds, [Hostname] is the
    tagged string "node-1". *)
Definition hostnamed_reply (m : string) (args : list GoValue) : Call :=
  if String.eqb m "org.freedesktop.DBus.Properties.GetAll" then
    MkCall [VMap TString TVariant properties] None
  else if String.eqb m "org.freedesktop.DBus.Properties.Get" then
    match args with
    | [VString _; VString "Hostname"] =>
        MkCall [VVariant "s" (VString "node-1")] None
    | [VString _; VString "StaticHostname"] =>
        MkCall [VVariant "s" (VString "build-42")] None
    | _ => MkCall [] (Some (dbus_Error
               "org.freedesktop.DBus.Error.UnknownProperty" []))
    end
  else if String.prefix "org.freedesktop.hostname1.Set" m then MkCall [] None
  else MkCall [] (Some unknown_method).

Definition hostnamed : Script :=
  MkScript (inl 7) 1000 external_only None hostnamed_reply.

(** A peer whose hostname properties are integers. *)
Definition integer_reply (m : string) (args : list GoValue) : Call :=
  MkCall [VVariant "i" (VInt32 42)] None.

Definition integer_hostnamed : Script :=
  MkScript (inl 7) 1000 external_only None integer_reply.

(** A peer that refuses every call. *)
Definition denying : Script :=
  MkScript (inl 7) 1000 external_only None
           (fun _ _ => MkCall [] (Some access_denied)).

(** Construction failures at each of the three steps. *)
Definition unreachable : Script :=
  MkScript (inr no_bus) 1000 external_only None hostnamed_reply.
Definition rejecting_auth : Script :=
  MkScript (inl 7) 1000 (fun _ => Some auth_failed) None hostnamed_reply.
Definition rejecting_hello : Script :=
  MkScript (inl 7) 1000 external_only (Some hello_failed) hostnamed_reply.

(** Before anything ran, and with one adapter constructed against
    connection 7. *)
Definition start : State (list dbus_Conn) := MkState [] [] [].

Definition bound : BusObject :=
  Object 7 "org.freedesktop.hostname1" "/org/freedesktop/hostname1".

Definition constructed : State (list dbus_Conn) :=
  MkState [] [MkConn (Some 7) (Some bound)] [7].

End Stub.

(** * Vocabulary of the lifecycle properties *)

(** The error [New] is to report: that of the first step to fail among
    reaching the bus, authentication and Hello.  What [Close] answers on
    the way out plays no part. *)
Definition first_failure {S} (bus : Bus S) (x : S) : option error :=
  match SystemBusPrivate bus x with
  | (inr e, _) => Some e
  | (inl h, x1) =>
      match Auth_ bus h [AuthExternal (Itoa (Getuid bus x1))] x1 with
      | (Some e, _) => Some e
      | (None, x2) => fst (Hello_ bus h x2)
      end
  end.

(** The stages of one private connection as the bus library sees them. *)
Inductive Phase : Type :=
| Idle
| Opened (h : dbus_Conn)
| Authenticated (h : dbus_Conn)
| Greeted (h : dbus_Conn)
| HungUp.

(** The order the library expects: authentication on the connection that
    was opened, Hello once authentication succeeded, method calls once
    Hello succeeded and only on that connection, [Close] on an open
    connection, nothing after it. *)
Definition handshake_step (ph : Phase) (ev : Event) : option Phase :=
  match ev with
  | EvGetuid _ => Some ph
  | EvSystemBusPrivate r =>
      match ph, r with
      | Idle, inl h => Some (Opened h)
      | Idle, inr _ => Some Idle
      | _, _ => None
      end
  | EvAuth h' _ r =>
      match ph with
      | Opened h =>
          if decide (h = h')
          then Some (match r with None => Authenticated h | Some _ => Opened h end)
          else None
      | _ => None
      end
  | EvHello h' r =>
      match ph with
      | Authenticated h =>
          if decide (h = h')
          then Some (match r with None => Greeted h | Some _ => Authenticated h end)
          else None
      | _ => None
      end
  | EvCall o _ _ _ _ =>
      match ph with
      | Greeted h => if decide (obj_conn o = h) then Some ph else None
      | _ => None
      end
  | EvClose h' _ =>
      match ph with
      | Opened h | Authenticated h | Greeted h =>
          if decide (h = h') then Some HungUp else None
      | _ => None
      end
  end.

Fixpoint handshake (ph : Phase) (evs : list Event) : option Phase :=
  match evs with
  | [] => Some ph
  | ev :: rest =>
      match handshake_step ph ev with
      | Some ph' => handshake ph' rest
      | None => None
      end
  end.

(** An event that is a method call on the object [o]. *)
Definition is_call_on (o : BusObject) (ev : Event) : Prop :=
  ∃ m args call, ev = EvCall o m 0 args call.

(** A client of the package from start to end: construct, give up on an
    error, otherwise run the operations and close. *)
Definition session {S} (bus : Bus S) (ops : list Op)
  : Go S (error + list Result * option error) :=
  '(c, err) ← Hostname1.New bus;
  match err with
  | Some e => mret (inl e)
  | None =>
      rs ← run_ops bus ops c;
      e ← Hostname1.Close bus c;
      mret (inr (rs, e))
  end.

(** A client that closes and then goes on using the adapter. *)
Definition close_then {S} (bus : Bus S) (op : Op) (c : ptr)
  : Go S (option error * Result) :=
  e ← Hostname1.Close bus c;
  r ← run_op bus op c;
  mret (e, r).

(** A peer that answers Get with a bare string instead of a variant. *)
Definition untagged_hostnamed : Stub.Script :=
  Stub.MkScript (inl 7%nat) 1000 Stub.external_only None
                (fun _ _ => MkCall [VString "node-1"] None).

(** * Decimal rendering *)

Lemma digit_val_digit (d : N) : (d < 10)%N → digit_val (digit d) = Some d.
Proof.
  intros Hd. unfold digit_val, digit.
  rewrite N_ascii_embedding by lia.
  replace ((48 <=? 48 + d)%N && (48 + d <=? 57)%N) with true.
  - f_equal. lia.
  - symmetry. apply andb_true_intro. split; apply N.leb_le; lia.
Qed.

Lemma digit_not_minus (d : N) : (d < 10)%N → Ascii.eqb (digit d) "-" = false.
Proof.
  intros Hd. apply Ascii.eqb_neq. intros Heq.
  apply (f_equal N_of_ascii) in Heq. unfold digit in Heq.
  rewrite N_ascii_embedding in Heq by lia. cbn in Heq. lia.
Qed.

Lemma formatBits_head (fuel : nat) : ∀ (n : N) (acc : string),
  ∃ d t, (d < 10)%N ∧ formatBits (S fuel) n acc = String (digit d) t.
Proof.
  induction fuel as [|fuel IH]; intros n acc.
  - exists (n mod 10)%N, acc. split; [apply N.mod_lt; lia|].
    cbn [formatBits]. by destruct (n / 10 =? 0)%N.
  - change (formatBits (S (S fuel)) n acc)
      with (if (n / 10 =? 0)%N then String (digit (n mod 10)) acc
            else formatBits (S fuel) (n / 10) (String (digit (n mod 10)) acc)).
    destruct (n / 10 =? 0)%N; [|apply IH].
    exists (n mod 10)%N, acc. split; [apply N.mod_lt; lia|done].
Qed.

Lemma read_digits_formatBits (fuel : nat) : ∀ (n : N) (acc : string),
  (0 < n)%N → (n < 2 ^ N.of_nat fuel)%N →
  read_digits 0 (formatBits fuel n acc) = read_digits n acc.
Proof.
  induction fuel as [|fuel IH]; intros n acc Hpos Hlt.
  - cbn in Hlt. lia.
  - rewrite Nat2N.inj_succ, N.pow_succ_r' in Hlt.
    assert (Hstep : read_digits (n / 10) (String (digit (n mod 10)) acc)
                    = read_digits n acc).
    { cbn [read_digits]. rewrite digit_val_digit by (apply N.mod_lt; lia).
      f_equal. pose proof (N.div_mod n 10). lia. }
    cbn [formatBits]. destruct (n / 10 =? 0)%N eqn:Hq.
    + apply N.eqb_eq in Hq. rewrite <- Hstep, Hq. done.
    + apply N.eqb_neq in Hq.
      assert (n / 10 <= n / 2)%N by (apply N.div_le_compat_l; lia).
      assert (n / 2 < 2 ^ N.of_nat fuel)%N
        by (apply N.Div0.div_lt_upper_bound; lia).
      rewrite IH; [exact Hstep| |].
      * destruct (n / 10)%N; [done|lia].
      * lia.
Qed.

Lemma size_nat_bound (p : positive) :
  (Npos p < 2 ^ N.of_nat (Pos.size_nat p))%N.
Proof.
  induction p as [p IH|p IH|]; cbn [Pos.size_nat];
    rewrite ?Nat2N.inj_succ, ?N.pow_succ_r'; cbn; lia.
Qed.

Lemma read_formatBits_pos (p : positive) :
  ∃ c t, formatBits (Pos.size_nat p) (Npos p) "" = String c t ∧
         Ascii.eqb c "-" = false ∧
         read_digits 0 (String c t) = Some (Npos p).
Proof.
  destruct (Pos.size_nat p) as [|k] eqn:Hk.
  { destruct p; discriminate. }
  destruct (formatBits_head k (Npos p) "") as (d & t & Hd & Heq).
  exists (digit d), t. split; [done|]. split; [by apply digit_not_minus|].
  rewrite <- Heq, <- Hk.
  rewrite read_digits_formatBits; [done|lia|apply size_nat_bound].
Qed.

(** Reading the text [Itoa] produced gives the number back. *)
Lemma Itoa_decimal (i : Z) : read_decimal (Itoa i) = Some i.
Proof.
  destruct i as [|p|p]; [done| |].
  - destruct (read_formatBits_pos p) as (c & t & Heq & Hc & Hr).
    unfold Itoa, read_decimal. rewrite Heq, Hc, Hr. done.
  - destruct (read_formatBits_pos p) as (c & t & Heq & Hc & Hr).
    unfold Itoa, read_decimal. rewrite Heq.
    change (Ascii.eqb "-" "-") with true. cbv iota.
    change (String.eqb (String c t) "") with false. cbv iota.
    rewrite Hr. done.
Qed.

Example Itoa_1000 : Itoa 1000 = "1000".
Proof. reflexivity. Qed.

Example Itoa_root : Itoa 0 = "0".
Proof. reflexivity. Qed.

Example Itoa_nobody : Itoa 65534 = "65534".
Proof. reflexivity. Qed.

Example Itoa_no_uid : Itoa (-1) = "-1".
Proof. reflexivity. Qed.

(** * Running the adapter symbolically *)

Ltac go_unfold :=
  cbv beta iota zeta delta
    [Hostname1.New Hostname1.initConnection Hostname1.Close
     Hostname1.GetProperties Hostname1.GetProperty
     Hostname1.GetHostname Hostname1.GetStaticHostname
     Hostname1.SetHostname Hostname1.SetStaticHostname
     Hostname1.SetPrettyHostname Hostname1.SetIconName Hostname1.SetChassis
     Hostname1.dbusInterface Hostname1.dbusPath
     SettersOnly.New SettersOnly.initConnection
     SettersOnly.SetHostname SettersOnly.SetStaticHostname
     SettersOnly.SetPrettyHostname SettersOnly.SetIconName
     SettersOnly.SetChassis SettersOnly.dbusInterface SettersOnly.dbusPath
     setter setter' typed_getter run_op Call_Store
     mbind mret Go_bind Go_ret go_bind go_ret panic
     new_Conn deref update set_conn set_object external
     dbus_SystemBusPrivate os_Getuid Conn_Auth Conn_Hello Conn_Close
     Conn_Object Object_Call conn_and_err String.append];
  cbn [trace heap ext conn object Err Body].

Lemma lookup_new (l : list Conn) (v : Conn) :
  (l ++ [v]) !! length l = Some v.
Proof. by apply list_lookup_middle. Qed.

Lemma insert_new (l : list Conn) (v w : Conn) :
  <[length l := w]> (l ++ [v]) = l ++ [w].
Proof. rewrite insert_app_r_alt by lia. by rewrite Nat.sub_diag. Qed.

(** One rewriting step of a run: a heap access on the fresh struct, or an
    answer of the outside world that is known from a hypothesis. *)
Ltac go_step :=
  go_unfold;
  first
    [ rewrite lookup_new
    | rewrite insert_new
    | match goal with
      | H : ?f = (_, _) |- context [?f] => rewrite H
      | H : ?l !! ?p = Some _ |- context [?l !! ?p] => rewrite H
      | H : ?f = inl _ |- context [?f] => rewrite H
      | H : ?f = inr _ |- context [?f] => rewrite H
      | H : ?f = Some _ |- context [?f] => rewrite H
      | H : ?f = None |- context [?f] => rewrite H
      end ].

Ltac go_run := repeat go_step; go_unfold.

Section Construction.
Context {S : Type} (bus : Bus S).

(** The four ways [New] can go, each with its result, its trace and the
    heap it leaves. *)
Lemma New_run (s : State S) :
  match SystemBusPrivate bus (ext s) with
  | (inr e, x1) =>
      Hostname1.New bus s =
      Done (None, Some e)
           (MkState (trace s ++ [EvSystemBusPrivate (inr e)])
                    (heap s ++ [MkConn None None]) x1)
  | (inl h, x1) =>
      let uid := Getuid bus x1 in
      let ms := [AuthExternal (Itoa uid)] in
      match Auth_ bus h ms x1 with
      | (Some e, x2) =>
          let '(r, x3) := Close_ bus h x2 in
          Hostname1.New bus s =
          Done (None, Some e)
               (MkState (trace s ++ [EvSystemBusPrivate (inl h); EvGetuid uid;
                                     EvAuth h ms (Some e); EvClose h r])
                        (heap s ++ [MkConn (Some h) None]) x3)
      | (None, x2) =>
          match Hello_ bus h x2 with
          | (Some e, x3) =>
              let '(r, x4) := Close_ bus h x3 in
              Hostname1.New bus s =
              Done (None, Some e)
                   (MkState (trace s ++ [EvSystemBusPrivate (inl h);
                                         EvGetuid uid; EvAuth h ms None;
                                         EvHello h (Some e); EvClose h r])
                            (heap s ++ [MkConn (Some h) None]) x4)
          | (None, x3) =>
              Hostname1.New bus s =
              Done (Some (length (heap s)), None)
                   (MkState (trace s ++ [EvSystemBusPrivate (inl h);
                                         EvGetuid uid; EvAuth h ms None;
                                         EvHello h None])
                            (heap s ++
                             [MkConn (Some h)
                                (Some (Object h "org.freedesktop.hostname1"
                                         "/org/freedesktop/hostname1"))])
                            x3)
          end
      end
  end.
Proof.
  destruct (SystemBusPrivate bus (ext s)) as [[h|e] x1] eqn:Hd; cbv zeta.
  - destruct (Auth_ _ _ _ _) as [[e|] x2] eqn:Ha.
    + destruct (Close_ _ _ _) as [r x3] eqn:Hc.
      go_run. by rewrite <- !app_assoc.
    + destruct (Hello_ _ _ _) as [[e|] x3] eqn:Hh.
      * destruct (Close_ _ _ _) as [r x4] eqn:Hc.
        go_run. by rewrite <- !app_assoc.
      * go_run. by rewrite <- !app_assoc.
  - go_run. done.
Qed.

Lemma SettersOnly_New (s : State S) :
  SettersOnly.New bus s = Hostname1.New bus s.
Proof. reflexivity. Qed.
End Construction.

Section Operations.
Context {S : Type} (bus : Bus S).

Ltac wire_names :=
  cbv beta iota delta
    [wire_method wire_args setter_name getter_property String.append] in *.

(** Each setter on a bound adapter: one call, its error status returned. *)
Lemma setter_run (m : Setter) (p : nat) (v : Conn) (o : BusObject)
      (name : string) (askForAuth : bool) (s : State S) :
  heap s !! p = Some v → object v = Some o →
  ∀ call x,
    Call_ bus o (wire_method (OpSet m name askForAuth)) 0
          [VString name; VBool askForAuth] (ext s) = (call, x) →
    setter bus m (Some p) name askForAuth s =
    Done (Err call)
         (MkState (trace s ++ [EvCall o (wire_method (OpSet m name askForAuth))
                                      0 [VString name; VBool askForAuth] call])
                  (heap s) x).
Proof.
  intros Hp Ho call x Hc. destruct v as [vc vo]. cbn in Ho. subst vo.
  destruct m; wire_names; go_run; done.
Qed.

Lemma setter'_run (m : Setter) (c : ptr) (name : string) (askForAuth : bool)
      (s : State S) :
  setter' bus m c name askForAuth s = setter bus m c name askForAuth s.
Proof. by destruct m. Qed.

(** [GetProperty] on a bound adapter: one call, then [Call.Store]. *)
Lemma GetProperty_run (n : string) (p : nat) (v : Conn) (o : BusObject)
      (s : State S) :
  heap s !! p = Some v → object v = Some o →
  ∀ call x,
    Call_ bus o "org.freedesktop.DBus.Properties.Get" 0
          [VString "org.freedesktop.hostname1"; VString n] (ext s)
    = (call, x) →
    Hostname1.GetProperty bus (Some p) n s =
    Done (match Call_Store (Store_Variant bus) call with
          | inl err => (VNil, Some err)
          | inr prop => (Variant_Value prop, None)
          end)
         (MkState (trace s ++ [EvCall o "org.freedesktop.DBus.Properties.Get"
                                      0 [VString "org.freedesktop.hostname1";
                                         VString n] call])
                  (heap s) x).
Proof.
  intros Hp Ho call x Hc. destruct v as [vc vo]. cbn in Ho. subst vo.
  go_run. destruct (Err call); [done|].
  by destruct (Store_Variant bus (Body call)).
Qed.

(** The typed getters are [GetProperty] followed by the coercion. *)
Lemma typed_getter_coercion (g : TypedGetter) (c : ptr) (s : State S) :
  typed_getter bus g c s =
  (Hostname1.GetProperty bus c (getter_property g) ≫= string_coercion) s.
Proof.
  destruct g; cbn [typed_getter getter_property];
    unfold Hostname1.GetHostname, Hostname1.GetStaticHostname;
    cbv [mbind Go_bind go_bind].
  all: destruct (Hostname1.GetProperty bus c _ s) as [[hn [e|]] s'|msg s'].
  all: try reflexivity.
  all: destruct hn; reflexivity.
Qed.

(** The loop of [GetProperties] unwraps every entry and drops none. *)
Lemma unwrap_all (props : gmap string Variant) :
  map_fold (fun k v out => <[k := Variant_Value v]> out) ∅ props
  = Variant_Value <$> props.
Proof.
  apply (map_fold_weak_ind
           (fun out m => out = Variant_Value <$> m)).
  - by rewrite fmap_empty.
  - intros k v m out Hk ->. by rewrite fmap_insert.
Qed.

Lemma GetProperties_run (p : nat) (v : Conn) (o : BusObject) (s : State S) :
  heap s !! p = Some v → object v = Some o →
  ∀ call x,
    Call_ bus o "org.freedesktop.DBus.Properties.GetAll" 0
          [VString "org.freedesktop.hostname1"] (ext s) = (call, x) →
    Hostname1.GetProperties bus (Some p) s =
    Done (match Call_Store (Store_Props bus) call with
          | inl err => (None, Some err)
          | inr props => (Some (Variant_Value <$> props), None)
          end)
         (MkState (trace s ++ [EvCall o "org.freedesktop.DBus.Properties.GetAll"
                                      0 [VString "org.freedesktop.hostname1"]
                                      call])
                  (heap s) x).
Proof.
  intros Hp Ho call x Hc. destruct v as [vc vo]. cbn in Ho. subst vo.
  go_run. destruct (Err call); [done|].
  destruct (Store_Props bus (Body call)); [done|].
  by rewrite unwrap_all.
Qed.

(** Any operation on a bound adapter: it returns, having made exactly the
    one call of section 6 on the bound object, and a failed call's error
    is the operation's error. *)
Lemma run_op_run (op : Op) (p : nat) (v : Conn) (o : BusObject)
      (s : State S) :
  heap s !! p = Some v → object v = Some o →
  ∀ call x,
    Call_ bus o (wire_method op) 0 (wire_args op) (ext s) = (call, x) →
    ∃ r, run_op bus op (Some p) s =
         Done r (MkState (trace s ++ [EvCall o (wire_method op) 0
                                             (wire_args op) call])
                         (heap s) x) ∧
         (∀ e, Err call = Some e → result_err r = Some e).
Proof.
  intros Hp Ho call x Hc. destruct op as [|n|g|m name ask].
  - cbn [run_op]. cbv [mbind Go_bind go_bind].
    rewrite (GetProperties_run p v o s Hp Ho call x Hc).
    unfold Call_Store.
    destruct (Err call) as [e|]; [|destruct (Store_Props bus (Body call))];
      eexists; (split; [reflexivity|]); cbn; congruence.
  - cbn [run_op]. cbv [mbind Go_bind go_bind].
    rewrite (GetProperty_run n p v o s Hp Ho call x Hc).
    unfold Call_Store.
    destruct (Err call) as [e|]; [|destruct (Store_Variant bus (Body call))];
      eexists; (split; [reflexivity|]); cbn; congruence.
  - cbn [run_op]. cbv [mbind Go_bind go_bind].
    rewrite typed_getter_coercion. cbv [mbind Go_bind go_bind].
    rewrite (GetProperty_run _ p v o s Hp Ho call x Hc).
    unfold Call_Store.
    destruct (Err call) as [e|];
      [|destruct (Store_Variant bus (Body call)) as [e|[sg []]]];
      eexists; (split; [reflexivity|]); cbn; congruence.
  - cbn [run_op]. cbv [mbind Go_bind go_bind].
    rewrite (setter_run m p v o name ask s Hp Ho call x Hc).
    eexists. split; [reflexivity|]. cbn. congruence.
Qed.
End Operations.

(** * Construction *)

(** Which connection a known stretch of trace dialed. *)
Ltac dialed H :=
  rewrite ?elem_of_cons, elem_of_nil in H;
  repeat match goal with
         | H' : _ ∨ _ |- _ => destruct H' as [H'|H']
         end;
  try discriminate; try done; simplify_eq.

(** C1: the error [New] returns is the error of the first step of
    construction that failed, reaching the bus, authentication or the
    Hello handshake, so it is non-nil whenever one of them failed.  With
    that error [New] returns a nil adapter, and every connection opened on
    the way has been passed to [Close] by then: the calls [New] made,
    which begin with the attempt to reach the bus, leave no connection
    open, and the last of them is the [Close] of the connection that was
    opened.  Only when no step failed is the adapter non-nil; it is then
    fully bound and its connection is still open. *)
Theorem New_failure_releases_connection {S} (bus : Bus S) (s : State S) :
  ∃ c err s' evs,
    Hostname1.New bus s = Done (c, err) s' ∧
    trace s' = trace s ++ evs ∧
    err = first_failure bus (ext s) ∧
    head evs = Some (EvSystemBusPrivate (fst (SystemBusPrivate bus (ext s)))) ∧
    match err with
    | Some _ =>
        c = None ∧
        unreleased evs [] = [] ∧
        ∀ h, EvSystemBusPrivate (inl h) ∈ evs →
             ∃ r, last evs = Some (EvClose h r)
    | None =>
        ∃ p h, c = Some p ∧
               heap s' !! p =
               Some (MkConn (Some h)
                       (Some (Object h "org.freedesktop.hostname1"
                                "/org/freedesktop/hostname1"))) ∧
               unreleased evs [] = [h]
    end.
Proof.
  pose proof (New_run bus s) as Hrun. unfold first_failure.
  destruct (SystemBusPrivate bus (ext s)) as [[h|e] x1]; cbv zeta in Hrun;
    cbn [fst].
  - destruct (Auth_ _ _ _ _) as [[e|] x2].
    + destruct (Close_ _ _ _) as [r x3].
      eexists _, _, _, _. split; [exact Hrun|]. split; [reflexivity|].
      split; [done|]. split; [done|]. split; [done|]. split.
      * cbn. by rewrite decide_True.
      * intros h' Hin. exists r. by dialed Hin.
    + destruct (Hello_ _ _ _) as [[e|] x3]; cbn [fst].
      * destruct (Close_ _ _ _) as [r x4].
        eexists _, _, _, _. split; [exact Hrun|]. split; [reflexivity|].
        split; [done|]. split; [done|]. split; [done|]. split.
        -- cbn. by rewrite decide_True.
        -- intros h' Hin. exists r. by dialed Hin.
      * eexists _, _, _, _. split; [exact Hrun|]. split; [reflexivity|].
        split; [done|]. split; [done|].
        exists (length (heap s)), h. split; [done|]. split; [|done].
        cbn [heap]. apply lookup_new.
  - eexists _, _, _, _. split; [exact Hrun|]. split; [reflexivity|].
    split; [done|]. split; [done|].
    split; [done|]. split; [done|]. intros h Hin. by dialed Hin.
Qed.

(** C7: construction makes at most one authentication attempt, none when
    the bus could not be reached; the attempt offers exactly one mechanism,
    EXTERNAL, and its identity string is [strconv.Itoa] of what [os.Getuid]
    answered, a decimal numeral that reads back as that number.  Both
    source files do the same. *)
Theorem construction_authenticates_by_numeric_uid {S} (bus : Bus S)
        (s : State S) :
  ∃ r s' evs,
    Hostname1.New bus s = Done r s' ∧
    SettersOnly.New bus s = Done r s' ∧
    trace s' = trace s ++ evs ∧
    match SystemBusPrivate bus (ext s) with
    | (inr _, _) => auth_attempts evs = []
    | (inl _, x1) =>
        ∃ user, auth_attempts evs = [[AuthExternal user]] ∧
                user = Itoa (Getuid bus x1) ∧
                read_decimal user = Some (Getuid bus x1) ∧
                EvGetuid (Getuid bus x1) ∈ evs
    end.
Proof.
  pose proof (New_run bus s) as Hrun.
  destruct (SystemBusPrivate bus (ext s)) as [[h|e] x1]; cbv zeta in Hrun.
  - destruct (Auth_ _ _ _ _) as [[e|] x2].
    + destruct (Close_ _ _ _) as [r x3].
      eexists _, _, _. split; [exact Hrun|]. split; [exact Hrun|].
      split; [reflexivity|]. eexists. split; [reflexivity|].
      split; [reflexivity|]. split; [apply Itoa_decimal|by repeat constructor].
    + destruct (Hello_ _ _ _) as [[e|] x3].
      * destruct (Close_ _ _ _) as [r x4].
        eexists _, _, _. split; [exact Hrun|]. split; [exact Hrun|].
        split; [reflexivity|]. eexists. split; [reflexivity|].
        split; [reflexivity|]. split; [apply Itoa_decimal|by repeat constructor].
      * eexists _, _, _. split; [exact Hrun|]. split; [exact Hrun|].
        split; [reflexivity|]. eexists. split; [reflexivity|].
        split; [reflexivity|]. split; [apply Itoa_decimal|by repeat constructor].
  - eexists _, _, _. split; [exact Hrun|]. split; [exact Hrun|].
    split; reflexivity.
Qed.

(** C8: over the same bus library the two source files agree on their
    shared surface: [New], [initConnection] and the five setters give the
    same result, the same trace of calls and the same heap from every
    state. *)
Theorem variants_agree {S} (bus : Bus S) :
  (∀ s, SettersOnly.New bus s = Hostname1.New bus s) ∧
  (∀ c s, SettersOnly.initConnection bus c s
          = Hostname1.initConnection bus c s) ∧
  (∀ m c name askForAuth s,
      setter' bus m c name askForAuth s = setter bus m c name askForAuth s).
Proof.
  split; [reflexivity|]. split; [reflexivity|].
  intros m c name askForAuth s. destruct m; reflexivity.
Qed.

(** The three failing constructions and the successful one, on the stub. *)
Example New_unreachable :
  Hostname1.New (Stub.bus Stub.unreachable) Stub.start =
  Done (None, Some Stub.no_bus)
       (MkState [EvSystemBusPrivate (inr Stub.no_bus)] [MkConn None None] []).
Proof. reflexivity. Qed.

Example New_auth_rejected :
  Hostname1.New (Stub.bus Stub.rejecting_auth) Stub.start =
  Done (None, Some Stub.auth_failed)
       (MkState [EvSystemBusPrivate (inl 7); EvGetuid 1000;
                 EvAuth 7 [AuthExternal "1000"] (Some Stub.auth_failed);
                 EvClose 7 None]
                [MkConn (Some 7) None] []).
Proof. reflexivity. Qed.

Example New_hello_rejected :
  Hostname1.New (Stub.bus Stub.rejecting_hello) Stub.start =
  Done (None, Some Stub.hello_failed)
       (MkState [EvSystemBusPrivate (inl 7); EvGetuid 1000;
                 EvAuth 7 [AuthExternal "1000"] None;
                 EvHello 7 (Some Stub.hello_failed);
                 EvClose 7 None]
                [MkConn (Some 7) None] []).
Proof. reflexivity. Qed.

Example New_succeeds :
  Hostname1.New (Stub.bus Stub.hostnamed) Stub.start =
  Done (Some 0, None)
       (MkState [EvSystemBusPrivate (inl 7); EvGetuid 1000;
                 EvAuth 7 [AuthExternal "1000"] None; EvHello 7 None]
                [MkConn (Some 7) (Some Stub.bound)] [7]).
Proof. reflexivity. Qed.

(** * Setters *)

(** C2: on a bound adapter every setter, for every [name] and
    [askForAuth], returns after exactly one call into the bus: the call is
    made on the bound object, its method is "org.freedesktop.hostname1."
    followed by the setter's own name, and its arguments are the two
    values [name], [askForAuth] in that order.  What the setter returns is
    the error status of that call.  Both source files do the same. *)
Theorem setter_issues_one_qualified_call {S} (bus : Bus S) (m : Setter)
        (p : nat) (v : Conn) (o : BusObject) (name : string)
        (askForAuth : bool) (s : State S) :
  heap s !! p = Some v → object v = Some o →
  ∃ call s',
    setter bus m (Some p) name askForAuth s = Done (Err call) s' ∧
    setter' bus m (Some p) name askForAuth s = Done (Err call) s' ∧
    heap s' = heap s ∧
    trace s' = trace s ++
               [EvCall o ("org.freedesktop.hostname1." +:+ setter_name m) 0
                       [VString name; VBool askForAuth] call].
Proof.
  intros Hp Ho.
  destruct (Call_ bus o (wire_method (OpSet m name askForAuth)) 0
                  [VString name; VBool askForAuth] (ext s))
    as [call x] eqn:Hc.
  pose proof (setter_run bus m p v o name askForAuth s Hp Ho call x Hc)
    as Hrun.
  exists call. eexists. split; [exact Hrun|].
  split; [by rewrite <- Hrun; apply setter'_run|]. done.
Qed.

Lemma setter_issues_one_qualified_call_witness :
  ∃ call s',
    setter (Stub.bus Stub.hostnamed) mSetStaticHostname (Some 0%nat)
           "build-42" false Stub.constructed = Done (Err call) s' ∧
    setter' (Stub.bus Stub.hostnamed) mSetStaticHostname (Some 0%nat)
            "build-42" false Stub.constructed = Done (Err call) s' ∧
    heap s' = heap Stub.constructed ∧
    trace s' = trace Stub.constructed ++
               [EvCall Stub.bound
                       ("org.freedesktop.hostname1." +:+
                        setter_name mSetStaticHostname) 0
                       [VString "build-42"; VBool false] call].
Proof.
  apply (setter_issues_one_qualified_call
           (Stub.bus Stub.hostnamed) mSetStaticHostname 0%nat
           (MkConn (Some 7%nat) (Some Stub.bound)) Stub.bound
           "build-42" false Stub.constructed); reflexivity.
Defined.

(** The recording-stub scenario of section 8. *)
Example SetStaticHostname_build_42 :
  Hostname1.SetStaticHostname (Stub.bus Stub.hostnamed) (Some 0%nat)
                              "build-42" false Stub.constructed =
  Done None
       (MkState [EvCall Stub.bound
                        "org.freedesktop.hostname1.SetStaticHostname" 0
                        [VString "build-42"; VBool false] (MkCall [] None)]
                [MkConn (Some 7%nat) (Some Stub.bound)] [7%nat]).
Proof. reflexivity. Qed.

(** A setter called through a nil or never-constructed adapter panics
    before any call is made. *)
Example SetHostname_unbound :
  Hostname1.SetHostname (Stub.bus Stub.hostnamed) (Some 0%nat) "x" false
                        (MkState [] [MkConn None None] []) =
  Panic nil_deref (MkState [] [MkConn None None] []).
Proof. reflexivity. Qed.

(** * Getters *)

(** C3: when the property fetched for [GetHostname] or [GetStaticHostname]
    decodes to a value whose dynamic type is not [string], the getter
    returns the empty string together with a non-nil error whose message is
    "hostname has incorrect type: " followed by the name of the type
    observed. *)
Theorem typed_getter_rejects_non_string {S} (bus : Bus S) (g : TypedGetter)
        (p : nat) (v : Conn) (o : BusObject) (s : State S)
        (call : Call) (x : S) (prop : Variant) :
  heap s !! p = Some v → object v = Some o →
  Call_ bus o "org.freedesktop.DBus.Properties.Get" 0
        [VString "org.freedesktop.hostname1"; VString (getter_property g)]
        (ext s) = (call, x) →
  Err call = None →
  Store_Variant bus (Body call) = inr prop →
  is_string (Variant_Value prop) = false →
  ∃ s',
    typed_getter bus g (Some p) s =
    Done ("", Some (errorString ("hostname has incorrect type: " +:+
                                 fmt_T (Variant_Value prop)))) s'.
Proof.
  intros Hp Ho Hc He Hst Hty. eexists.
  rewrite typed_getter_coercion. cbv [mbind Go_bind go_bind].
  rewrite (GetProperty_run bus _ p v o s Hp Ho call x Hc).
  unfold Call_Store. rewrite He, Hst.
  destruct (Variant_Value prop); try reflexivity. discriminate Hty.
Qed.

Lemma typed_getter_rejects_non_string_witness :
  ∃ s',
    typed_getter (Stub.bus Stub.integer_hostnamed) gGetHostname (Some 0%nat)
                 Stub.constructed =
    Done ("", Some (errorString
                      ("hostname has incorrect type: " +:+
                       fmt_T (Variant_Value (MakeVariant "i" (VInt32 42))))))
         s'.
Proof.
  apply (typed_getter_rejects_non_string
           (Stub.bus Stub.integer_hostnamed) gGetHostname 0%nat
           (MkConn (Some 7%nat) (Some Stub.bound)) Stub.bound Stub.constructed
           (MkCall [VVariant "i" (VInt32 42)] None) [7%nat]
           (MakeVariant "i" (VInt32 42)));
    reflexivity.
Defined.

Example GetHostname_integer :
  Hostname1.GetHostname (Stub.bus Stub.integer_hostnamed) (Some 0%nat)
                        Stub.constructed =
  Done ("", Some (errorString "hostname has incorrect type: int32"))
       (MkState [EvCall Stub.bound "org.freedesktop.DBus.Properties.Get" 0
                        [VString "org.freedesktop.hostname1";
                         VString "Hostname"]
                        (MkCall [VVariant "i" (VInt32 42)] None)]
                [MkConn (Some 7%nat) (Some Stub.bound)] [7%nat]).
Proof. reflexivity. Qed.

(** An object path is a string underneath, yet the assertion refuses it. *)
Example object_path_is_not_string :
  assert_string (VObjectPath "/org/freedesktop/hostname1") = ("", false) ∧
  Errorf_incorrect_type (VObjectPath "/org/freedesktop/hostname1")
  = errorString "hostname has incorrect type: dbus.ObjectPath".
Proof. split; reflexivity. Qed.

(** C4: [GetProperties] on a bound adapter returns after one GetAll call.
    When [Call.Store] yields the reported properties, the result is a
    non-nil map with a nil error whose keys are exactly the reported names
    and whose value at each name is the reported variant's [Value()].  When
    it yields an error, in particular the call's own error status, the
    result is the nil map together with that same error. *)
Theorem GetProperties_keys_and_errors {S} (bus : Bus S) (p : nat) (v : Conn)
        (o : BusObject) (s : State S) (call : Call) (x : S) :
  heap s !! p = Some v → object v = Some o →
  Call_ bus o "org.freedesktop.DBus.Properties.GetAll" 0
        [VString "org.freedesktop.hostname1"] (ext s) = (call, x) →
  ∃ s',
    match Call_Store (Store_Props bus) call with
    | inl e => Hostname1.GetProperties bus (Some p) s = Done (None, Some e) s'
    | inr props =>
        ∃ out : gmap string GoValue,
          Hostname1.GetProperties bus (Some p) s = Done (Some out, None) s' ∧
          dom out = dom props ∧
          ∀ k, out !! k = Variant_Value <$> props !! k
    end ∧
    ∀ e, Err call = Some e → Call_Store (Store_Props bus) call = inl e.
Proof.
  intros Hp Ho Hc. eexists.
  rewrite (GetProperties_run bus p v o s Hp Ho call x Hc). split.
  - destruct (Call_Store (Store_Props bus) call) as [e|props]; [done|].
    exists (Variant_Value <$> props). split; [done|]. split.
    + apply dom_fmap_L.
    + intros k. apply lookup_fmap.
  - intros e He. unfold Call_Store. by rewrite He.
Qed.

Lemma GetProperties_keys_and_errors_witness :
  ∃ s',
    match Call_Store (Store_Props (Stub.bus Stub.hostnamed))
                     (MkCall [VMap TString TVariant Stub.properties] None) with
    | inl e =>
        Hostname1.GetProperties (Stub.bus Stub.hostnamed) (Some 0%nat)
                                Stub.constructed = Done (None, Some e) s'
    | inr props =>
        ∃ out : gmap string GoValue,
          Hostname1.GetProperties (Stub.bus Stub.hostnamed) (Some 0%nat)
                                  Stub.constructed = Done (Some out, None) s' ∧
          dom out = dom props ∧
          ∀ k, out !! k = Variant_Value <$> props !! k
    end ∧
    ∀ e, Err (MkCall [VMap TString TVariant Stub.properties] None) = Some e →
         Call_Store (Store_Props (Stub.bus Stub.hostnamed))
                    (MkCall [VMap TString TVariant Stub.properties] None)
         = inl e.
Proof.
  apply (GetProperties_keys_and_errors
           (Stub.bus Stub.hostnamed) 0%nat
           (MkConn (Some 7%nat) (Some Stub.bound)) Stub.bound Stub.constructed
           (MkCall [VMap TString TVariant Stub.properties] None) [7%nat]);
    reflexivity.
Defined.

Example GetProperties_stub :
  ∃ s', Hostname1.GetProperties (Stub.bus Stub.hostnamed) (Some 0%nat)
                                Stub.constructed =
        Done (Some (<["Hostname" := VString "node-1"]>
                    (<["StaticHostname" := VString "build-42"]>
                     (<["Chassis" := VString "server"]>
                      (<["KernelName" := VString "Linux"]> ∅)))), None) s'.
Proof. eexists. vm_compute. reflexivity. Qed.

Example GetProperties_denied :
  ∃ s', Hostname1.GetProperties (Stub.bus Stub.denying) (Some 0%nat)
                                Stub.constructed =
        Done (None, Some Stub.access_denied) s'.
Proof. eexists. reflexivity. Qed.

(** C6: when the Get call for the getter's property succeeds and its reply
    decodes to a variant holding the string [str], [GetProperty] returns
    that string as a generic value and the typed getter returns [str] with
    a nil error; and always, for any receiver and state, [GetHostname] is
    [GetProperty "Hostname"] followed by the string coercion and
    [GetStaticHostname] is [GetProperty "StaticHostname"] followed by it. *)
Theorem typed_getter_decodes_tagged_string {S} (bus : Bus S)
        (g : TypedGetter) (p : nat) (v : Conn) (o : BusObject) (s : State S)
        (call : Call) (x : S) (prop : Variant) (str : string) :
  heap s !! p = Some v → object v = Some o →
  Call_ bus o "org.freedesktop.DBus.Properties.Get" 0
        [VString "org.freedesktop.hostname1"; VString (getter_property g)]
        (ext s) = (call, x) →
  Err call = None →
  Store_Variant bus (Body call) = inr prop →
  Variant_Value prop = VString str →
  ∃ s',
    Hostname1.GetProperty bus (Some p) (getter_property g) s
    = Done (VString str, None) s' ∧
    typed_getter bus g (Some p) s = Done (str, None) s' ∧
    ∀ c s0, typed_getter bus g c s0 =
            (Hostname1.GetProperty bus c (getter_property g)
             ≫= string_coercion) s0.
Proof.
  intros Hp Ho Hc He Hst Hval.
  pose proof (GetProperty_run bus _ p v o s Hp Ho call x Hc) as Hrun.
  unfold Call_Store in Hrun. rewrite He, Hst, Hval in Hrun.
  eexists. split; [exact Hrun|]. split.
  - rewrite typed_getter_coercion. cbv [mbind Go_bind go_bind].
    by rewrite Hrun.
  - apply typed_getter_coercion.
Qed.

Lemma typed_getter_decodes_tagged_string_witness :
  ∃ s',
    Hostname1.GetProperty (Stub.bus Stub.hostnamed) (Some 0%nat)
                          (getter_property gGetHostname) Stub.constructed
    = Done (VString "node-1", None) s' ∧
    typed_getter (Stub.bus Stub.hostnamed) gGetHostname (Some 0%nat)
                 Stub.constructed = Done ("node-1", None) s' ∧
    ∀ c s0, typed_getter (Stub.bus Stub.hostnamed) gGetHostname c s0 =
            (Hostname1.GetProperty (Stub.bus Stub.hostnamed) c
                                   (getter_property gGetHostname)
             ≫= string_coercion) s0.
Proof.
  apply (typed_getter_decodes_tagged_string
           (Stub.bus Stub.hostnamed) gGetHostname 0%nat
           (MkConn (Some 7%nat) (Some Stub.bound)) Stub.bound Stub.constructed
           (MkCall [VVariant "s" (VString "node-1")] None) [7%nat]
           (MakeVariant "s" (VString "node-1")) "node-1");
    reflexivity.
Defined.

Example GetHostname_node_1 :
  Hostname1.GetHostname (Stub.bus Stub.hostnamed) (Some 0%nat)
                        Stub.constructed =
  Done ("node-1", None)
       (MkState [EvCall Stub.bound "org.freedesktop.DBus.Properties.Get" 0
                        [VString "org.freedesktop.hostname1";
                         VString "Hostname"]
                        (MkCall [VVariant "s" (VString "node-1")] None)]
                [MkConn (Some 7%nat) (Some Stub.bound)] [7%nat]).
Proof. reflexivity. Qed.

(** C10: whenever [GetHostname] or [GetStaticHostname] returns a non-nil
    error, the string returned with it is the empty string. *)
Theorem typed_getter_error_has_empty_string {S} (bus : Bus S)
        (g : TypedGetter) (c : ptr) (s s' : State S) (str : string)
        (e : error) :
  typed_getter bus g c s = Done (str, Some e) s' → str = "".
Proof.
  rewrite typed_getter_coercion. cbv [mbind Go_bind go_bind].
  destruct (Hostname1.GetProperty bus c (getter_property g) s)
    as [[hn [e'|]] s1|msg s1]; [| |discriminate].
  - destruct hn; cbn; intros [= <- _ _]; reflexivity.
  - destruct hn; cbn; intros [= <- _ _] || intros [=]; reflexivity.
Qed.

Lemma typed_getter_error_has_empty_string_witness :
  typed_getter (Stub.bus Stub.denying) gGetStaticHostname (Some 0%nat)
               Stub.constructed =
  Done ("", Some Stub.access_denied)
       (MkState [EvCall Stub.bound "org.freedesktop.DBus.Properties.Get" 0
                        [VString "org.freedesktop.hostname1";
                         VString "StaticHostname"]
                        (MkCall [] (Some Stub.access_denied))]
                [MkConn (Some 7%nat) (Some Stub.bound)] [7%nat]) ∧
  "" = "".
Proof.
  split; [reflexivity|].
  apply (typed_getter_error_has_empty_string
           (Stub.bus Stub.denying) gGetStaticHostname (Some 0%nat)
           Stub.constructed
           (MkState [EvCall Stub.bound "org.freedesktop.DBus.Properties.Get" 0
                            [VString "org.freedesktop.hostname1";
                             VString "StaticHostname"]
                            (MkCall [] (Some Stub.access_denied))]
                    [MkConn (Some 7%nat) (Some Stub.bound)] [7%nat])
           "" Stub.access_denied).
  reflexivity.
Defined.

(** * Error propagation and the frame *)

(** C5: an operation on a bound adapter whose one remote call comes back
    with an error status returns exactly that error, having made that one
    call and no other; whatever value accompanies the error is the nil map,
    the nil value or the empty string. *)
Theorem remote_error_returned_unchanged {S} (bus : Bus S) (op : Op)
        (p : nat) (v : Conn) (o : BusObject) (s : State S)
        (call : Call) (x : S) (e : error) :
  heap s !! p = Some v → object v = Some o →
  Call_ bus o (wire_method op) 0 (wire_args op) (ext s) = (call, x) →
  Err call = Some e →
  ∃ r s',
    run_op bus op (Some p) s = Done r s' ∧
    result_err r = Some e ∧
    match r with
    | RProps out _ => out = None
    | RValue val _ => val = VNil
    | RString str _ => str = ""
    | RErr _ => True
    end ∧
    trace s' = trace s ++ [EvCall o (wire_method op) 0 (wire_args op) call].
Proof.
  intros Hp Ho Hc He.
  destruct (run_op_run bus op p v o s Hp Ho call x Hc) as (r & Hrun & Herr).
  exists r. eexists. split; [exact Hrun|]. split; [by apply Herr|].
  split; [|done].
  destruct op as [|n|g|m name ask]; cbn [run_op] in Hrun;
    cbv [mbind Go_bind go_bind] in Hrun.
  - rewrite (GetProperties_run bus p v o s Hp Ho call x Hc) in Hrun.
    unfold Call_Store in Hrun. rewrite He in Hrun.
    cbv [mret Go_ret go_ret] in Hrun. by simplify_eq.
  - rewrite (GetProperty_run bus n p v o s Hp Ho call x Hc) in Hrun.
    unfold Call_Store in Hrun. rewrite He in Hrun.
    cbv [mret Go_ret go_ret] in Hrun. by simplify_eq.
  - rewrite typed_getter_coercion in Hrun.
    cbv [mbind Go_bind go_bind] in Hrun.
    rewrite (GetProperty_run bus _ p v o s Hp Ho call x Hc) in Hrun.
    unfold Call_Store in Hrun. rewrite He in Hrun.
    cbv [string_coercion mret Go_ret go_ret] in Hrun. by simplify_eq.
  - rewrite (setter_run bus m p v o name ask s Hp Ho call x Hc) in Hrun.
    cbv [mret Go_ret go_ret] in Hrun. by simplify_eq.
Qed.

Lemma remote_error_returned_unchanged_witness :
  ∃ r s',
    run_op (Stub.bus Stub.denying) (OpSet mSetChassis "laptop" true)
           (Some 0%nat) Stub.constructed = Done r s' ∧
    result_err r = Some Stub.access_denied ∧
    match r with
    | RProps out _ => out = None
    | RValue val _ => val = VNil
    | RString str _ => str = ""
    | RErr _ => True
    end ∧
    trace s' = trace Stub.constructed ++
               [EvCall Stub.bound
                       (wire_method (OpSet mSetChassis "laptop" true)) 0
                       (wire_args (OpSet mSetChassis "laptop" true))
                       (MkCall [] (Some Stub.access_denied))].
Proof.
  apply (remote_error_returned_unchanged
           (Stub.bus Stub.denying) (OpSet mSetChassis "laptop" true) 0%nat
           (MkConn (Some 7%nat) (Some Stub.bound)) Stub.bound Stub.constructed
           (MkCall [] (Some Stub.access_denied)) [7%nat] Stub.access_denied);
    reflexivity.
Defined.

(** C9: a caller that runs any series of operations through one bound
    adapter gets an answer to each, and afterwards the heap, hence the
    adapter's connection handle and bound object, is what it was; the
    calls made are, one per operation and in order, the operation's remote
    method on the one bound object. *)
Theorem operations_leave_adapter_unchanged {S} (bus : Bus S)
        (ops : list Op) (p : nat) (v : Conn) (o : BusObject) :
  ∀ s : State S,
    heap s !! p = Some v → object v = Some o →
    ∃ rs s' evs,
      run_ops bus ops (Some p) s = Done rs s' ∧
      length rs = length ops ∧
      heap s' = heap s ∧
      trace s' = trace s ++ evs ∧
      length evs = length ops ∧
      remote_calls evs
      = (fun op => (o, wire_method op, wire_args op)) <$> ops.
Proof.
  induction ops as [|op ops IH]; intros s Hp Ho.
  - exists [], s, []. by rewrite app_nil_r.
  - destruct (Call_ bus o (wire_method op) 0 (wire_args op) (ext s))
      as [call x] eqn:Hc.
    destruct (run_op_run bus op p v o s Hp Ho call x Hc) as (r & Hrun & _).
    set (s1 := MkState (trace s ++ [EvCall o (wire_method op) 0
                                           (wire_args op) call])
                       (heap s) x) in *.
    destruct (IH s1 Hp Ho) as (rs & s' & evs & Hrest & Hlen & Hheap & Htr
                               & Hevs & Hcalls).
    exists (r :: rs), s',
           (EvCall o (wire_method op) 0 (wire_args op) call :: evs).
    split.
    { cbn [run_ops]. cbv [mbind Go_bind go_bind mret Go_ret go_ret].
      rewrite Hrun.
      cbv [mbind Go_bind go_bind mret Go_ret go_ret] in Hrest.
      by rewrite Hrest. }
    split; [cbn; lia|]. split; [done|]. split.
    { rewrite Htr. cbn [trace s1]. by rewrite <- app_assoc. }
    split; [cbn; lia|]. cbn. by rewrite <- Hcalls.
Qed.

Lemma operations_leave_adapter_unchanged_witness :
  ∃ rs s' evs,
    run_ops (Stub.bus Stub.hostnamed)
            [OpSet mSetHostname "node-1" false; OpTyped gGetHostname;
             OpGetProperties; OpGetProperty "Chassis";
             OpSet mSetIconName "computer-server" true]
            (Some 0%nat) Stub.constructed = Done rs s' ∧
    length rs = 5%nat ∧
    heap s' = heap Stub.constructed ∧
    trace s' = trace Stub.constructed ++ evs ∧
    length evs = 5%nat ∧
    remote_calls evs
    = (fun op => (Stub.bound, wire_method op, wire_args op)) <$>
      [OpSet mSetHostname "node-1" false; OpTyped gGetHostname;
       OpGetProperties; OpGetProperty "Chassis";
       OpSet mSetIconName "computer-server" true].
Proof.
  apply (operations_leave_adapter_unchanged
           (Stub.bus Stub.hostnamed)
           [OpSet mSetHostname "node-1" false; OpTyped gGetHostname;
            OpGetProperties; OpGetProperty "Chassis";
            OpSet mSetIconName "computer-server" true]
           0%nat (MkConn (Some 7%nat) (Some Stub.bound)) Stub.bound
           Stub.constructed); reflexivity.
Defined.

(** * Further properties of construction *)

Section Lifecycle.
Context {S : Type} (bus : Bus S).

Lemma New_fails_nil (s s' : State S) (c : ptr) (e : error) :
  Hostname1.New bus s = Done (c, Some e) s' → c = None.
Proof.
  pose proof (New_run bus s) as Hrun.
  destruct (SystemBusPrivate bus (ext s)) as [[h|e0] x1]; cbv zeta in Hrun.
  - destruct (Auth_ _ _ _ _) as [[e1|] x2].
    + destruct (Close_ _ _ _) as [r x3]. rewrite Hrun. by intros [= <- _ _].
    + destruct (Hello_ _ _ _) as [[e1|] x3].
      * destruct (Close_ _ _ _) as [r x4]. rewrite Hrun. by intros [= <- _ _].
      * rewrite Hrun. intros [=].
  - rewrite Hrun. by intros [= <- _ _].
Qed.

Lemma Close_run (p : nat) (v : Conn) (h : dbus_Conn) (s : State S) :
  heap s !! p = Some v → conn v = Some h →
  ∀ r x, Close_ bus h (ext s) = (r, x) →
  Hostname1.Close bus (Some p) s =
  Done r (MkState (trace s ++ [EvClose h r]) (heap s) x).
Proof.
  intros Hp Hh r x Hc. destruct v as [vc vo]. cbn in Hh. subst vc.
  go_run. done.
Qed.

Lemma run_ops_calls (ops : list Op) (p : nat) (v : Conn) (o : BusObject) :
  ∀ s : State S,
    heap s !! p = Some v → object v = Some o →
    ∃ rs s' evs,
      run_ops bus ops (Some p) s = Done rs s' ∧
      length rs = length ops ∧
      heap s' = heap s ∧
      trace s' = trace s ++ evs ∧
      length evs = length ops ∧
      Forall (is_call_on o) evs.
Proof.
  induction ops as [|op ops IH]; intros s Hp Ho.
  - exists [], s, []. by rewrite app_nil_r.
  - destruct (Call_ bus o (wire_method op) 0 (wire_args op) (ext s))
      as [call x] eqn:Hc.
    destruct (run_op_run bus op p v o s Hp Ho call x Hc) as (r & Hrun & _).
    set (s1 := MkState (trace s ++ [EvCall o (wire_method op) 0
                                           (wire_args op) call])
                       (heap s) x) in *.
    destruct (IH s1 Hp Ho)
      as (rs & s' & evs & Hrest & Hlen & Hheap & Htr & Hn & Hev).
    exists (r :: rs), s',
           (EvCall o (wire_method op) 0 (wire_args op) call :: evs).
    split.
    { cbn [run_ops]. cbv [mbind Go_bind go_bind mret Go_ret go_ret].
      rewrite Hrun.
      cbv [mbind Go_bind go_bind mret Go_ret go_ret] in Hrest.
      by rewrite Hrest. }
    split; [cbn; lia|]. split; [done|]. split.
    { rewrite Htr. cbn [trace s1]. by rewrite <- app_assoc. }
    split; [cbn; lia|]. constructor; [by eexists _, _, _|done].
Qed.

Lemma unreleased_app (a b : list Event) : ∀ opened,
  unreleased (a ++ b) opened = unreleased b (unreleased a opened).
Proof.
  induction a as [|ev a IH]; intros opened; [done|].
  destruct ev as [[h|e]| | | |h r|]; cbn; apply IH.
Qed.

Lemma unreleased_calls (o : BusObject) (evs : list Event) :
  Forall (is_call_on o) evs → ∀ opened, unreleased evs opened = opened.
Proof.
  induction 1 as [|ev evs (m & args & call & ->) _ IH]; intros opened; [done|].
  cbn. apply IH.
Qed.

Lemma handshake_app (a b : list Event) : ∀ ph,
  handshake ph (a ++ b) = handshake ph a ≫= fun ph' => handshake ph' b.
Proof.
  induction a as [|ev a IH]; intros ph; [done|].
  cbn [app handshake]. destruct (handshake_step ph ev); [apply IH|done].
Qed.

Lemma handshake_calls (o : BusObject) (h : dbus_Conn) (evs : list Event) :
  Forall (is_call_on o) evs → obj_conn o = h →
  handshake (Greeted h) evs = Some (Greeted h).
Proof.
  intros Hall Hh.
  induction Hall as [|ev evs (m & args & call & ->) _ IH]; [done|].
  cbn. by rewrite decide_True.
Qed.

Lemma remote_calls_length (o : BusObject) (evs : list Event) :
  Forall (is_call_on o) evs → length (remote_calls evs) = length evs.
Proof.
  induction 1 as [|ev evs (m & args & call & ->) _ IH]; [done|].
  cbn. by f_equal.
Qed.

Lemma remote_calls_app (a b : list Event) :
  remote_calls (a ++ b) = remote_calls a ++ remote_calls b.
Proof. apply omap_app. Qed.
End Lifecycle.

(** X1: the error [New] returns is the error of the first step that
    failed, reaching the bus, authentication or Hello, exactly as the
    library gave it, and nil when none failed; what [Close] answers while
    cleaning up never replaces it.  Both source files do the same. *)
Theorem New_returns_first_failure {S} (bus : Bus S) (s : State S) :
  ∃ c s',
    Hostname1.New bus s = Done (c, first_failure bus (ext s)) s' ∧
    SettersOnly.New bus s = Done (c, first_failure bus (ext s)) s' ∧
    (c = None ↔ first_failure bus (ext s) ≠ None).
Proof.
  pose proof (New_run bus s) as Hrun. unfold first_failure.
  destruct (SystemBusPrivate bus (ext s)) as [[h|e] x1]; cbv zeta in Hrun.
  - destruct (Auth_ _ _ _ _) as [[e|] x2].
    + destruct (Close_ _ _ _) as [r x3].
      eexists _, _. split; [exact Hrun|]. split; [exact Hrun|]. done.
    + destruct (Hello_ _ _ _) as [[e|] x3]; cbn [fst].
      * destruct (Close_ _ _ _) as [r x4].
        eexists _, _. split; [exact Hrun|]. split; [exact Hrun|]. done.
      * eexists _, _. split; [exact Hrun|]. split; [exact Hrun|].
        split; [discriminate|]. by intros [].
  - eexists _, _. split; [exact Hrun|]. split; [exact Hrun|]. done.
Qed.

(** X2: [New] allocates exactly one adapter struct and writes to no other:
    every struct that existed before is still there unchanged, and the
    pointer returned on success is the new struct's, which aliases none of
    them. *)
Theorem New_allocates_one_fresh_adapter {S} (bus : Bus S) (s : State S) :
  ∃ c err s' v,
    Hostname1.New bus s = Done (c, err) s' ∧
    heap s' = heap s ++ [v] ∧
    (∀ q w, heap s !! q = Some w → heap s' !! q = Some w) ∧
    (∀ p, c = Some p → heap s !! p = None ∧ heap s' !! p = Some v).
Proof.
  pose proof (New_run bus s) as Hrun.
  assert (Hfresh : ∀ (v : Conn) (p : nat), Some (length (heap s)) = Some p →
            heap s !! p = None ∧ (heap s ++ [v]) !! p = Some v).
  { intros v p [= <-]. split; [by apply lookup_ge_None_2|apply lookup_new]. }
  assert (Hkeep : ∀ (v : Conn) q w, heap s !! q = Some w →
            (heap s ++ [v]) !! q = Some w).
  { intros v q w Hq. by apply lookup_app_l_Some. }
  destruct (SystemBusPrivate bus (ext s)) as [[h|e] x1]; cbv zeta in Hrun.
  - destruct (Auth_ _ _ _ _) as [[e|] x2].
    + destruct (Close_ _ _ _) as [r x3].
      eexists _, _, _, _. split; [exact Hrun|]. split; [reflexivity|].
      split; [apply Hkeep|]. intros p [=].
    + destruct (Hello_ _ _ _) as [[e|] x3].
      * destruct (Close_ _ _ _) as [r x4].
        eexists _, _, _, _. split; [exact Hrun|]. split; [reflexivity|].
        split; [apply Hkeep|]. intros p [=].
      * eexists _, _, _, _. split; [exact Hrun|]. split; [reflexivity|].
        split; [apply Hkeep|]. apply Hfresh.
  - eexists _, _, _, _. split; [exact Hrun|]. split; [reflexivity|].
    split; [apply Hkeep|]. intros p [=].
Qed.

(** X3: the calls [New] makes respect the order of the handshake:
    authentication is attempted only on the connection just opened, Hello
    only once authentication succeeded, [Close] only on that open
    connection and nothing after it; construction never issues a remote
    method call.  It ends with the connection greeted exactly when [New]
    returns no error, and with no connection or a closed one otherwise. *)
Theorem New_follows_handshake {S} (bus : Bus S) (s : State S) :
  ∃ c err s' evs,
    Hostname1.New bus s = Done (c, err) s' ∧
    trace s' = trace s ++ evs ∧
    remote_calls evs = [] ∧
    match err with
    | None => ∃ p v h, c = Some p ∧ heap s' !! p = Some v ∧
                       conn v = Some h ∧ handshake Idle evs = Some (Greeted h)
    | Some _ => handshake Idle evs = Some Idle ∨
                handshake Idle evs = Some HungUp
    end.
Proof.
  pose proof (New_run bus s) as Hrun.
  destruct (SystemBusPrivate bus (ext s)) as [[h|e] x1]; cbv zeta in Hrun.
  - destruct (Auth_ _ _ _ _) as [[e|] x2].
    + destruct (Close_ _ _ _) as [r x3].
      eexists _, _, _, _. split; [exact Hrun|]. split; [reflexivity|].
      split; [done|]. right. cbn. by rewrite !decide_True.
    + destruct (Hello_ _ _ _) as [[e|] x3].
      * destruct (Close_ _ _ _) as [r x4].
        eexists _, _, _, _. split; [exact Hrun|]. split; [reflexivity|].
        split; [done|]. right. cbn. by rewrite !decide_True.
      * eexists _, _, _, _. split; [exact Hrun|]. split; [reflexivity|].
        split; [done|]. eexists _, _, h. split; [done|].
        split; [apply lookup_new|]. split; [done|].
        cbn. by rewrite !decide_True.
  - eexists _, _, _, _. split; [exact Hrun|]. split; [reflexivity|].
    split; [done|]. by left.
Qed.

(** * The adapter over its whole life *)

(** What a client run amounts to in the embedding, where every library
    call answers. *)
Lemma session_run {S} (bus : Bus S) (ops : list Op) (s : State S) :
  ∃ r s' evs,
    session bus ops s = Done r s' ∧
    trace s' = trace s ++ evs ∧
    unreleased evs [] = [] ∧
    (handshake Idle evs = Some Idle ∨ handshake Idle evs = Some HungUp) ∧
    match r with
    | inl e => first_failure bus (ext s) = Some e ∧ remote_calls evs = []
    | inr (rs, _) =>
        first_failure bus (ext s) = None ∧ length rs = length ops ∧
        length (remote_calls evs) = length ops
    end.
Proof.
  pose proof (New_run bus s) as Hrun. unfold session, first_failure.
  cbv [mbind Go_bind go_bind mret Go_ret go_ret].
  destruct (SystemBusPrivate bus (ext s)) as [[h|e] x1]; cbv zeta in Hrun.
  - destruct (Auth_ _ _ _ _) as [[e|] x2].
    + destruct (Close_ _ _ _) as [r x3]. rewrite Hrun.
      eexists _, _, _. split; [reflexivity|]. split; [reflexivity|].
      split; [cbn; by rewrite decide_True|].
      split; [right; cbn; by rewrite !decide_True|]. done.
    + destruct (Hello_ _ _ _) as [[e|] x3].
      * destruct (Close_ _ _ _) as [r x4]. rewrite Hrun.
        eexists _, _, _. split; [reflexivity|]. split; [reflexivity|].
        split; [cbn; by rewrite decide_True|].
        split; [right; cbn; by rewrite !decide_True|]. done.
      * rewrite Hrun.
        set (o := Object h "org.freedesktop.hostname1"
                         "/org/freedesktop/hostname1").
        set (v := MkConn (Some h) (Some o)).
        set (evs1 := [EvSystemBusPrivate (inl h); EvGetuid (Getuid bus x1);
                      EvAuth h [AuthExternal (Itoa (Getuid bus x1))] None;
                      EvHello h None]).
        set (s1 := MkState (trace s ++ evs1) (heap s ++ [v]) x3).
        assert (Hp : heap s1 !! length (heap s) = Some v) by apply lookup_new.
        destruct (run_ops_calls bus ops _ v o s1 Hp eq_refl)
          as (rs & s2 & evs2 & Hops & Hlen & Hheap & Htr & Hn & Hcalls).
        rewrite Hops.
        destruct (Close_ bus h (ext s2)) as [rc x4] eqn:Hc.
        rewrite <- Hheap in Hp.
        rewrite (Close_run bus _ v h s2 Hp eq_refl rc x4 Hc).
        exists (inr (rs, rc)). eexists. exists (evs1 ++ evs2 ++ [EvClose h rc]).
        split; [reflexivity|]. cbn [trace]. rewrite Htr. cbn [trace s1].
        split; [by rewrite <- !app_assoc|].
        split.
        { rewrite !unreleased_app, (unreleased_calls o evs2 Hcalls).
          cbn. by rewrite decide_True. }
        split.
        { right. rewrite handshake_app.
          replace (handshake Idle evs1) with (Some (Greeted h))
            by (cbn; by rewrite !decide_True).
          cbn [mbind option_bind]. rewrite handshake_app.
          rewrite (handshake_calls o h evs2 Hcalls eq_refl).
          cbn. by rewrite decide_True. }
        split; [done|]. split; [done|].
        rewrite !remote_calls_app. cbn. rewrite app_nil_r.
        by rewrite (remote_calls_length o evs2 Hcalls).
  - rewrite Hrun. eexists _, _, _. split; [reflexivity|].
    split; [reflexivity|]. split; [done|]. split; [by left|]. done.
Qed.

(** X4: whenever the run of a client that constructs an adapter, gives up
    if construction failed, and otherwise runs a series of operations
    through it and closes it, returns to its caller, it has left no
    connection open: its calls came in the order of the handshake, ending
    with no connection or with a closed one.  If it returns the
    construction error, that is the error of the first failed step and no
    method call was made; otherwise every operation was answered and made
    one method call.  A run cut short by a panic inside the library, which
    never reaches [Close], is not a run that returns. *)
Theorem returned_session_leaves_nothing_open {S} (bus : Bus S)
        (ops : list Op) (s s' : State S)
        (r : error + list Result * option error) :
  session bus ops s = Done r s' →
  ∃ evs,
    trace s' = trace s ++ evs ∧
    unreleased evs [] = [] ∧
    (handshake Idle evs = Some Idle ∨ handshake Idle evs = Some HungUp) ∧
    match r with
    | inl e => first_failure bus (ext s) = Some e ∧ remote_calls evs = []
    | inr (rs, _) =>
        first_failure bus (ext s) = None ∧ length rs = length ops ∧
        length (remote_calls evs) = length ops
    end.
Proof.
  intros Hret.
  destruct (session_run bus ops s) as (r0 & s0 & evs & Hrun & Hrest).
  rewrite Hrun in Hret. injection Hret as <- <-. by exists evs.
Qed.

Lemma returned_session_leaves_nothing_open_witness :
  ∃ evs,
    [EvSystemBusPrivate (inl 7%nat); EvGetuid 1000;
     EvAuth 7%nat [AuthExternal "1000"] None; EvHello 7%nat None;
     EvCall Stub.bound "org.freedesktop.hostname1.SetStaticHostname" 0
            [VString "build-42"; VBool false] (MkCall [] None);
     EvCall Stub.bound "org.freedesktop.DBus.Properties.Get" 0
            [VString "org.freedesktop.hostname1"; VString "StaticHostname"]
            (MkCall [VVariant "s" (VString "build-42")] None);
     EvClose 7%nat None]
    = trace Stub.start ++ evs ∧
    unreleased evs [] = [] ∧
    (handshake Idle evs = Some Idle ∨ handshake Idle evs = Some HungUp) ∧
    first_failure (Stub.bus Stub.hostnamed) (ext Stub.start) = None ∧
    length [RErr None; RString "build-42" None] = 2%nat ∧
    length (remote_calls evs) = 2%nat.
Proof.
  apply (returned_session_leaves_nothing_open
           (Stub.bus Stub.hostnamed)
           [OpSet mSetStaticHostname "build-42" false;
            OpTyped gGetStaticHostname]
           Stub.start
           (MkState
              [EvSystemBusPrivate (inl 7%nat); EvGetuid 1000;
               EvAuth 7%nat [AuthExternal "1000"] None; EvHello 7%nat None;
               EvCall Stub.bound "org.freedesktop.hostname1.SetStaticHostname"
                      0 [VString "build-42"; VBool false] (MkCall [] None);
               EvCall Stub.bound "org.freedesktop.DBus.Properties.Get" 0
                      [VString "org.freedesktop.hostname1";
                       VString "StaticHostname"]
                      (MkCall [VVariant "s" (VString "build-42")] None);
               EvClose 7%nat None]
              [MkConn (Some 7%nat) (Some Stub.bound)] [])
           (inr ([RErr None; RString "build-42" None], None))).
  reflexivity.
Defined.

(** X5: the adapter [New] returns together with an error is the nil
    pointer, so a caller who ignores the error and goes on panics with a
    nil dereference at the first method it calls, whichever it is, before
    anything is sent to the bus. *)
Theorem failed_New_adapter_panics {S} (bus : Bus S) (op : Op)
        (s s' : State S) (c : ptr) (e : error) :
  Hostname1.New bus s = Done (c, Some e) s' →
  run_op bus op c s' = Panic nil_deref s' ∧
  Hostname1.Close bus c s' = Panic nil_deref s'.
Proof.
  intros Hnew. rewrite (New_fails_nil bus s s' c e Hnew).
  split; [|reflexivity].
  destruct op as [|n|[]|[] name ask]; reflexivity.
Qed.

Lemma failed_New_adapter_panics_witness :
  run_op (Stub.bus Stub.rejecting_auth) (OpSet mSetHostname "node-1" false)
         None
         (MkState [EvSystemBusPrivate (inl 7%nat); EvGetuid 1000;
                   EvAuth 7%nat [AuthExternal "1000"] (Some Stub.auth_failed);
                   EvClose 7%nat None]
                  [MkConn (Some 7%nat) None] [])
  = Panic nil_deref
          (MkState [EvSystemBusPrivate (inl 7%nat); EvGetuid 1000;
                    EvAuth 7%nat [AuthExternal "1000"] (Some Stub.auth_failed);
                    EvClose 7%nat None]
                   [MkConn (Some 7%nat) None] []) ∧
  Hostname1.Close (Stub.bus Stub.rejecting_auth) None
         (MkState [EvSystemBusPrivate (inl 7%nat); EvGetuid 1000;
                   EvAuth 7%nat [AuthExternal "1000"] (Some Stub.auth_failed);
                   EvClose 7%nat None]
                  [MkConn (Some 7%nat) None] [])
  = Panic nil_deref
          (MkState [EvSystemBusPrivate (inl 7%nat); EvGetuid 1000;
                    EvAuth 7%nat [AuthExternal "1000"] (Some Stub.auth_failed);
                    EvClose 7%nat None]
                   [MkConn (Some 7%nat) None] []).
Proof.
  apply (failed_New_adapter_panics
           (Stub.bus Stub.rejecting_auth) (OpSet mSetHostname "node-1" false)
           Stub.start _ None Stub.auth_failed).
  reflexivity.
Defined.

(** X6: on an adapter struct whose object was never bound, such as a
    zero [Conn] that did not come from [New], every getter and setter
    panics with a nil dereference and nothing is sent to the bus. *)
Theorem unbound_adapter_panics {S} (bus : Bus S) (op : Op) (p : nat)
        (v : Conn) (s : State S) :
  heap s !! p = Some v → object v = None →
  run_op bus op (Some p) s = Panic nil_deref s.
Proof.
  intros Hp Ho. destruct v as [vc vo]. cbn in Ho. subst vo.
  destruct op as [|n|[]|[] name ask]; cbn [run_op]; go_run; reflexivity.
Qed.

Lemma unbound_adapter_panics_witness :
  run_op (Stub.bus Stub.hostnamed) OpGetProperties (Some 0%nat)
         (MkState [] [MkConn None None] [])
  = Panic nil_deref (MkState [] [MkConn None None] []).
Proof.
  apply (unbound_adapter_panics
           (Stub.bus Stub.hostnamed) OpGetProperties 0%nat (MkConn None None)
           (MkState [] [MkConn None None] [])); reflexivity.
Defined.

(** X7: [Close] makes one [Close] call on the adapter's connection and
    returns what the library answered, but it records nothing in the
    adapter: the struct is unchanged, and an operation invoked afterwards
    is not refused locally, it is sent on the same bound object as
    before. *)
Theorem Close_does_not_disable_adapter {S} (bus : Bus S) (op : Op)
        (p : nat) (v : Conn) (h : dbus_Conn) (o : BusObject) (s : State S) :
  heap s !! p = Some v → conn v = Some h → object v = Some o →
  ∃ r call s',
    close_then bus op (Some p) s = Done (fst (Close_ bus h (ext s)), r) s' ∧
    heap s' = heap s ∧
    trace s' = trace s ++
               [EvClose h (fst (Close_ bus h (ext s)));
                EvCall o (wire_method op) 0 (wire_args op) call] ∧
    (∀ e, Err call = Some e → result_err r = Some e).
Proof.
  intros Hp Hh Ho.
  destruct (Close_ bus h (ext s)) as [rc x1] eqn:Hc. cbn [fst].
  pose proof (Close_run bus p v h s Hp Hh rc x1 Hc) as Hclose.
  set (s1 := MkState (trace s ++ [EvClose h rc]) (heap s) x1) in *.
  destruct (Call_ bus o (wire_method op) 0 (wire_args op) (ext s1))
    as [call x2] eqn:Hcall.
  destruct (run_op_run bus op p v o s1 Hp Ho call x2 Hcall)
    as (r & Hrun & Herr).
  exists r, call. eexists. split.
  { unfold close_then. cbv [mbind Go_bind go_bind mret Go_ret go_ret].
    rewrite Hclose, Hrun. reflexivity. }
  split; [done|]. split; [|done].
  cbn [trace s1]. by rewrite <- app_assoc.
Qed.

Lemma Close_does_not_disable_adapter_witness :
  ∃ r call s',
    close_then (Stub.bus Stub.hostnamed) (OpTyped gGetHostname) (Some 0%nat)
               Stub.constructed
    = Done (fst (Close_ (Stub.bus Stub.hostnamed) 7%nat
                        (ext Stub.constructed)), r) s' ∧
    heap s' = heap Stub.constructed ∧
    trace s' = trace Stub.constructed ++
               [EvClose 7%nat (fst (Close_ (Stub.bus Stub.hostnamed) 7%nat
                                           (ext Stub.constructed)));
                EvCall Stub.bound (wire_method (OpTyped gGetHostname)) 0
                       (wire_args (OpTyped gGetHostname)) call] ∧
    (∀ e, Err call = Some e → result_err r = Some e).
Proof.
  apply (Close_does_not_disable_adapter
           (Stub.bus Stub.hostnamed) (OpTyped gGetHostname) 0%nat
           (MkConn (Some 7%nat) (Some Stub.bound)) 7%nat Stub.bound
           Stub.constructed); reflexivity.
Defined.

(** * Further properties of the getters *)

(** X8: a typed getter that returns a nil error returns the very string
    the property held: [GetProperty] for its property, run from the same
    state, returns that string as its value with a nil error and ends in
    the same state. *)
Theorem typed_getter_success_is_string {S} (bus : Bus S) (g : TypedGetter)
        (c : ptr) (s s' : State S) (str : string) :
  typed_getter bus g c s = Done (str, None) s' →
  Hostname1.GetProperty bus c (getter_property g) s
  = Done (VString str, None) s'.
Proof.
  rewrite typed_getter_coercion. cbv [mbind Go_bind go_bind].
  destruct (Hostname1.GetProperty bus c (getter_property g) s)
    as [[hn [e|]] s1|msg s1]; [| |discriminate].
  - destruct hn; cbn; intros [=].
  - destruct hn; cbn; intros [=]; by subst.
Qed.

Lemma typed_getter_success_is_string_witness :
  Hostname1.GetProperty (Stub.bus Stub.hostnamed) (Some 0%nat)
                        (getter_property gGetStaticHostname) Stub.constructed
  = Done (VString "build-42", None)
         (MkState [EvCall Stub.bound "org.freedesktop.DBus.Properties.Get" 0
                          [VString "org.freedesktop.hostname1";
                           VString "StaticHostname"]
                          (MkCall [VVariant "s" (VString "build-42")] None)]
                  [MkConn (Some 7%nat) (Some Stub.bound)] [7%nat]).
Proof.
  apply (typed_getter_success_is_string
           (Stub.bus Stub.hostnamed) gGetStaticHostname (Some 0%nat)
           Stub.constructed).
  reflexivity.
Defined.

(** X9: whenever [GetProperties] returns, its map is nil exactly when its
    error is non-nil: a caller never gets a map together with an error,
    nor neither of them. *)
Theorem GetProperties_nil_map_iff_error {S} (bus : Bus S) (c : ptr)
        (s s' : State S) (out : option (gmap string GoValue))
        (err : option error) :
  Hostname1.GetProperties bus c s = Done (out, err) s' →
  (out = None ↔ err ≠ None).
Proof.
  destruct c as [p|]; [|discriminate].
  destruct (heap s !! p) as [[vc [o|]]|] eqn:Hp; go_run; try discriminate.
  destruct (Call_ _ _ _ _ _ _) as [call x].
  destruct (Err call); [|destruct (Store_Props bus (Body call))];
    intros [= <- <- _]; split; done.
Qed.

Lemma GetProperties_nil_map_iff_error_witness :
  (None : option (gmap string GoValue)) = None ↔ Some Stub.access_denied ≠ None.
Proof.
  apply (GetProperties_nil_map_iff_error
           (Stub.bus Stub.denying) (Some 0%nat) Stub.constructed
           (MkState [EvCall Stub.bound "org.freedesktop.DBus.Properties.GetAll"
                            0 [VString "org.freedesktop.hostname1"]
                            (MkCall [] (Some Stub.access_denied))]
                    [MkConn (Some 7%nat) (Some Stub.bound)] [7%nat])).
  reflexivity.
Defined.

(** X10: when the Get call itself succeeds but its reply cannot be stored
    into a variant, the error of [Store] is what [GetProperty] returns,
    with a nil value, and what the typed getter for that property returns,
    with the empty string; no type-mismatch error of the adapter's own is
    put in its place. *)
Theorem undecodable_reply_is_returned_as_error {S} (bus : Bus S)
        (g : TypedGetter) (p : nat) (v : Conn) (o : BusObject) (s : State S)
        (call : Call) (x : S) (e : error) :
  heap s !! p = Some v → object v = Some o →
  Call_ bus o "org.freedesktop.DBus.Properties.Get" 0
        [VString "org.freedesktop.hostname1"; VString (getter_property g)]
        (ext s) = (call, x) →
  Err call = None →
  Store_Variant bus (Body call) = inl e →
  ∃ s',
    Hostname1.GetProperty bus (Some p) (getter_property g) s
    = Done (VNil, Some e) s' ∧
    typed_getter bus g (Some p) s = Done ("", Some e) s'.
Proof.
  intros Hp Ho Hc He Hst.
  pose proof (GetProperty_run bus _ p v o s Hp Ho call x Hc) as Hrun.
  unfold Call_Store in Hrun. rewrite He, Hst in Hrun.
  eexists. split; [exact Hrun|].
  rewrite typed_getter_coercion. cbv [mbind Go_bind go_bind].
  by rewrite Hrun.
Qed.

Lemma undecodable_reply_is_returned_as_error_witness :
  ∃ s',
    Hostname1.GetProperty (Stub.bus untagged_hostnamed) (Some 0%nat)
                          (getter_property gGetHostname) Stub.constructed
    = Done (VNil, Some Stub.type_mismatch) s' ∧
    typed_getter (Stub.bus untagged_hostnamed) gGetHostname (Some 0%nat)
                 Stub.constructed
    = Done ("", Some Stub.type_mismatch) s'.
Proof.
  apply (undecodable_reply_is_returned_as_error
           (Stub.bus untagged_hostnamed) gGetHostname 0%nat
           (MkConn (Some 7%nat) (Some Stub.bound)) Stub.bound Stub.constructed
           (MkCall [VString "node-1"] None) [7%nat] Stub.type_mismatch);
    reflexivity.
Defined.
